(** * kubernetes-aggregator-framework: the aggregation server

    A shallow embedding of [pkg/framework/aggregation_server.go]:
    the request dispatcher [handleResourceFunc] (get / list / watch against
    a backing Kubernetes client) and the router builder [NewServer].

    Go code with side effects is embedded as functions that return the
    sequence of observable effects (writes to the [http.ResponseWriter],
    calls of the backing client, [watcher.Stop()]) in program order,
    together with the way the run ends (return, still blocked, panic).
    Everything the handler obtains from outside (the REST mapper, the
    backing client, the selector parsers, the outcome of every [select])
    is an explicit input.  [NewServer] returns the server or the panic
    that aborts it; the function literals it registers are kept as data
    ([Handler]) and run by [serveHandler]. *)

From Stdlib Require Import ZArith Ascii String List Bool Lia.
From stdpp Require Import gmap strings list pretty.

Open Scope string_scope.
Open Scope list_scope.
Open Scope Z_scope.

(** ** Go library functions used by the handler *)

Module Go.

(** ASCII upper-case letters are mapped to lower case; every other
    character is left alone. *)
Definition to_lower (c : ascii) : ascii :=
  let n := N_of_ascii c in
  if ((65 <=? n) && (n <=? 90))%N then ascii_of_N (n + 32) else c.

Fixpoint lower (s : string) : string :=
  match s with
  | EmptyString => EmptyString
  | String c s' => String (to_lower c) (lower s')
  end.

(** [strings.EqualFold]: equality under case folding.  The handler only
    ever compares against the ASCII literal ["true"], whose letters have
    no non-ASCII case variants, so folding ASCII letters is enough. *)
Definition EqualFold (s t : string) : bool :=
  String.eqb (lower s) (lower t).

Definition digit_of (c : ascii) : option Z :=
  let n := Z.of_N (N_of_ascii c) in
  if (48 <=? n) && (n <=? 57) then Some (n - 48) else None.

Fixpoint parse_digits (s : string) (acc : Z) : option Z :=
  match s with
  | EmptyString => Some acc
  | String c s' =>
      match digit_of c with
      | Some d => parse_digits s' (acc * 10 + d)
      | None => None
      end
  end.

Definition minInt64 : Z := - 2 ^ 63.
Definition maxInt64 : Z := 2 ^ 63 - 1.

(** [strconv.ParseInt(s, 10, 64)]: an optional sign followed by one or
    more decimal digits; [None] stands for a non-nil error (syntax error
    or a value outside int64). *)
Definition ParseInt (s : string) : option Z :=
  match s with
  | EmptyString => None
  | String c rest =>
      let '(neg, body) :=
        if Ascii.eqb c "+"%char then (false, rest)
        else if Ascii.eqb c "-"%char then (true, rest)
        else (false, s) in
      match body with
      | EmptyString => None
      | _ =>
          match parse_digits body 0 with
          | None => None
          | Some n =>
              let v := if neg then - n else n in
              if (minInt64 <=? v) && (v <=? maxInt64) then Some v else None
          end
      end
  end.

(** [strings.TrimPrefix]: [s] without the leading [prefix], or [s] itself
    when it does not start with [prefix]. *)
Fixpoint strip_prefix (prefix s : string) : option string :=
  match prefix, s with
  | EmptyString, _ => Some s
  | String p prefix', String c s' =>
      if Ascii.eqb p c then strip_prefix prefix' s' else None
  | String _ _, EmptyString => None
  end.

Definition TrimPrefix (s prefix : string) : string :=
  match strip_prefix prefix s with
  | Some rest => rest
  | None => s
  end.

(** [strings.Split(s, "/")]: the pieces between the slashes; never empty. *)
Fixpoint Split (s : string) : list string :=
  match s with
  | EmptyString => [EmptyString]
  | String c s' =>
      if Ascii.eqb c "/"%char then EmptyString :: Split s'
      else match Split s' with
           | piece :: pieces => String c piece :: pieces
           | [] => [String c EmptyString]
           end
  end.

(** [url.Values] is [map[string][]string]; [Get] returns the first value
    of the key, or the empty string. *)
Abbreviation Values := (gmap string (list string)).

Definition Get (q : Values) (key : string) : string :=
  match q !! key with
  | Some (v :: _) => v
  | _ => ""
  end.

End Go.

(** ** net/http constants *)

Module http.
Definition MethodGet : string := "GET".
Definition MethodPut : string := "PUT".
Definition MethodDelete : string := "DELETE".
Definition MethodPost : string := "POST".
Definition StatusOK : Z := 200.
Definition StatusBadRequest : Z := 400.
Definition StatusNotFound : Z := 404.
Definition StatusMethodNotAllowed : Z := 405.
Definition StatusGone : Z := 410.
Definition StatusInternalServerError : Z := 500.
End http.

(** ** Kubernetes data *)

Record GroupVersionResource := GVR {
  gvrGroup : string; gvrVersion : string; gvrResource : string }.

Record GroupVersionKind := GVK {
  gvkGroup : string; gvkVersion : string; gvkKind : string }.

(** An API object, as far as the handler looks at it: its kind, its
    resource version, and the rest of its content. *)
Record Object := mkObject {
  objKind : GroupVersionKind;
  objResourceVersion : string;
  objContent : string }.

Record ObjectList := mkObjectList {
  listKind : GroupVersionKind;
  listResourceVersion : string;
  Items : list Object }.

(** [runtime.Object] values with the dynamic types the handler tells
    apart by type assertion. *)
Inductive RuntimeObject :=
| Typed (o : Object)                        (* a client.Object *)
| Unstructured (o : Object)                 (* *unstructured.Unstructured *)
| ListObj (l : ObjectList)                  (* a client.ObjectList *)
| StatusObj (code : Z) (message : string).  (* *metav1.Status *)

(** [metav1.APIResource], the fields the server reads or lists. *)
Record APIResource := mkAPIResource {
  Name : string;
  Namespaced : bool;
  Kind : string;
  Verbs : list string }.

(** A Go [any] handed to the JSON encoder. *)
Inductive Any :=
| AnyRuntime (o : RuntimeObject)   (* implements runtime.Object *)
| AnyAPIGroupList (group version : string)
                                   (* &metav1.APIGroupList of one group *)
| AnyAPIResourceList (groupVersion : string) (resources : list APIResource)
                                   (* &metav1.APIResourceList *)
| AnyValue (v : string).           (* any other value *)

Definition SetGroupVersionKind (k : GroupVersionKind) (o : Object) : Object :=
  mkObject k (objResourceVersion o) (objContent o).

Definition SetListGroupVersionKind (k : GroupVersionKind) (l : ObjectList)
  : ObjectList :=
  mkObjectList k (listResourceVersion l) (Items l).

Definition SetRuntimeGroupVersionKind (k : GroupVersionKind) (o : RuntimeObject)
  : RuntimeObject :=
  match o with
  | Typed o => Typed (SetGroupVersionKind k o)
  | Unstructured o => Unstructured (SetGroupVersionKind k o)
  | ListObj l => ListObj (SetListGroupVersionKind k l)
  | StatusObj c m => StatusObj c m
  end.

(** [metav1.ResourceVersionMatch] *)
Inductive ResourceVersionMatch :=
| ResourceVersionMatchNotOlderThan
| ResourceVersionMatchExact.

Definition rvm_is_NotOlderThan (m : ResourceVersionMatch) : bool :=
  match m with ResourceVersionMatchNotOlderThan => true | _ => false end.

(** The [switch] on the [resourceVersionMatch] query value (used by both
    the watch and the list branch): only the two exact strings are
    recognised, anything else leaves the default. *)
Definition parse_rvm (s : string) : ResourceVersionMatch :=
  if String.eqb s "Exact" then ResourceVersionMatchExact
  else if String.eqb s "NotOlderThan" then ResourceVersionMatchNotOlderThan
  else ResourceVersionMatchNotOlderThan.

(** Errors returned by the backing client.  [errStatus] is the embedded
    [metav1.Status] when the error is (or wraps) an [*apierrors.StatusError]. *)
Record Status := mkStatus {
  statusReason : string; statusCode : Z; statusMessage : string }.

Record BackingError := mkErr {
  errText : string;             (* err.Error() *)
  errStatus : option Status }.

Module apierrors.

(** The reasons apimachinery knows; an unknown reason falls back to the
    status code. *)
Definition knownReasons : list string :=
  [ "Unauthorized"; "Forbidden"; "NotFound"; "AlreadyExists"; "Conflict";
    "Gone"; "Invalid"; "ServerTimeout"; "StorageReadError"; "Timeout";
    "TooManyRequests"; "BadRequest"; "MethodNotAllowed"; "NotAcceptable";
    "RequestEntityTooLarge"; "UnsupportedMediaType"; "InternalError";
    "Expired"; "ServiceUnavailable" ].

(** [apierrors.IsNotFound] *)
Definition IsNotFound (e : BackingError) : bool :=
  match errStatus e with
  | None => false
  | Some st =>
      String.eqb (statusReason st) "NotFound"
      || (negb (existsb (String.eqb (statusReason st)) knownReasons)
          && (statusCode st =? http.StatusNotFound))
  end.

(** The test the handler writes out on its list and watch branches:
    [errors.As(err, &se) && se.ErrStatus.Code == http.StatusGone]. *)
Definition IsGoneStatus (e : BackingError) : bool :=
  match errStatus e with
  | None => false
  | Some st => statusCode st =? http.StatusGone
  end.

End apierrors.

(** [client.IgnoreNotFound]: nil for a not-found error, the error itself
    otherwise. *)
Definition IgnoreNotFound (e : BackingError) : option BackingError :=
  if apierrors.IsNotFound e then None else Some e.

Inductive result (E A : Type) :=
| Ok (a : A)
| Err (e : E).
Arguments Ok {E A} a.
Arguments Err {E A} e.

(** ** Events of a backing watch ([k8s.io/apimachinery/pkg/watch]) *)

Module watch.
Definition Added : string := "ADDED".
Definition Modified : string := "MODIFIED".
Definition Deleted : string := "DELETED".
Definition Bookmark : string := "BOOKMARK".
Definition Error : string := "ERROR".

(** [watch.Event]: the event type (a string type) and the object, which
    may be nil. *)
Record Event := mkEvent {
  evType : string;                  (* Type *)
  evObject : option RuntimeObject   (* Object *) }.
End watch.

(** The wrapper the handler declares for the wire:
    [type watchEvent struct { Type `json:"type"`; Object any `json:"object"` }]. *)
Record watchEvent := mkWatchEvent {
  weType : string;
  weObject : Any }.

(** ** JSON documents written by [json.Encoder.Encode] *)

Inductive JsonValue :=
| JNull
| JString (s : string)
| JValue (a : Any).     (* the marshalled form of a Go value *)

(** One encoded document: a bare value, or a struct with its keys in
    field order. *)
Inductive Json :=
| JDoc (v : JsonValue)
| JObject (fields : list (string * JsonValue)).

(** [encoding/json] names the keys of a struct after the [json] tags of
    its fields: [watchEvent] has the tags ["type"] and ["object"]. *)
Definition json_of_watchEvent (e : watchEvent) : Json :=
  JObject [("type", JString (weType e)); ("object", JValue (weObject e))].

(** [watch.Event] declares its two fields [Type] and [Object] without
    [json] tags, so [encoding/json] uses the Go field names as keys. *)
Definition json_of_Event (e : watch.Event) : Json :=
  JObject [("Type", JString (watch.evType e));
           ("Object", match watch.evObject e with
                      | Some o => JValue (AnyRuntime o)
                      | None => JNull
                      end)].

(** ** Options passed to the backing client *)

Definition Selector := string.

(** [client.ListOptions] (with the two fields of [Raw] the handler sets). *)
Record ListOptions := mkListOptions {
  loNamespace : string;
  loLimit : Z;
  loContinue : string;
  loLabelSelector : option Selector;
  loFieldSelector : option Selector;
  loRawResourceVersion : string;
  loRawResourceVersionMatch : ResourceVersionMatch }.

(** [metav1.ListOptions] as filled in by the watch branch. *)
Record WatchListOptions := mkWatchListOptions {
  woResourceVersion : string;
  woResourceVersionMatch : ResourceVersionMatch;
  woTimeoutSeconds : Z;
  woSendInitialEvents : bool;
  woWatch : bool;
  woAllowWatchBookmarks : bool;
  woLabelSelector : string;
  woFieldSelector : string }.

(** ** Observable effects of a handler run *)

Inductive Effect :=
| EHttpError (msg : string) (code : Z)   (* http.Error(w, msg, code) *)
| ESetHeader (key value : string)        (* w.Header().Set(key, value) *)
| EWriteHeader (code : Z)                (* w.WriteHeader(code) *)
| EWrite (body : string)                 (* w.Write([]byte(body)) *)
| EKubeGet (namespace name : string)     (* s.KubeClient.Get *)
| EKubeList (opts : ListOptions)         (* s.KubeClient.List *)
| EDynWatch (gvr : GroupVersionResource) (namespace : string)
            (opts : WatchListOptions)    (* ...Resource(gvr).Namespace(ns).Watch *)
| EWatcherStop                           (* watcher.Stop() *)
| EEncode (doc : Json)                   (* a successful enc.Encode(doc) *)
| EFlush.                                (* flusher.Flush() *)

(** How a run of the handler ends: it returns, it is still blocked in the
    [select] (no further outcome supplied), or it panics. *)
Inductive Outcome :=
| Returned
| Blocked
| Panicked (msg : string).

Definition Run : Type := list Effect * Outcome.

Definition ret (t : list Effect) : Run := (t, Returned).

Definition prepend (pre : list Effect) (r : Run) : Run :=
  (pre ++ fst r, snd r).

Definition trace (r : Run) : list Effect := fst r.
Definition outcome (r : Run) : Outcome := snd r.

(** [http.NotFound(w, r)] is [http.Error(w, "404 page not found", 404)]. *)
Definition EHttpNotFound : Effect :=
  EHttpError "404 page not found" http.StatusNotFound.

(** ** The collaborators of the handler *)

(** What the handler uses of [k8s.io/apimachinery]: the two selector
    parsers, and whether the Go type of a list can hold given objects, that
    is whether [meta.SetList] assigns them without an error. *)
Record Apimachinery := mkApimachinery {
  labels_Parse : string -> result string Selector;
  fields_ParseSelector : string -> result string Selector;
  canSetList : ObjectList -> list Object -> bool }.

(** [meta.SetList(list, objects)]: the list with [objects] as its items, or
    an error (and the list untouched) when an object does not fit the type
    of the list's items. *)
Definition SetList (k8s : Apimachinery) (l : ObjectList)
    (objects : list Object) : option ObjectList :=
  if canSetList k8s l objects
  then Some (mkObjectList (listKind l) (listResourceVersion l) objects)
  else None.

(** [client.Client], as used here. *)
Record Client := mkClient {
  KindFor : GroupVersionResource -> result string GroupVersionKind;
  (* Get(ctx, ObjectKey{Namespace, Name}, item) *)
  Get : string -> string -> Object -> result BackingError Object;
  (* List(ctx, items, &listOpts) *)
  List : ObjectList -> ListOptions -> result BackingError ObjectList }.

(** [*dynamic.DynamicClient]: opening a watch succeeds or fails. *)
Record DynamicClient := mkDynamicClient {
  Watch : GroupVersionResource -> string -> WatchListOptions -> option BackingError }.

Definition ResourceCreateNew : Type := GroupVersionResource * Object.
Definition ResourceCreateNewList : Type := GroupVersionResource * ObjectList.
Definition ResourceListCallback : Type :=
  string -> string -> ObjectList -> result string Any.
Definition ResourceWatchCallback : Type :=
  string -> string -> Object -> result string Any.

Record Resource := mkResource {
  CreateNew : ResourceCreateNew;
  CreateNewList : ResourceCreateNewList;
  ListCallback : option ResourceListCallback;     (* nil when absent *)
  WatchCallback : option ResourceWatchCallback }.

(** The [http.ResponseWriter]: whether it is an [http.Flusher], and the
    error (if any) of the [n]-th [Encode] on it. *)
Record ResponseWriter := mkResponseWriter {
  isFlusher : bool;
  encodeErr : nat -> Json -> option string }.

Record Request := mkRequest {
  Method : string;
  Path : string;
  Query : Go.Values }.

(** What one execution of the [select] in the watch loop yields. *)
Inductive SelectOutcome :=
| CtxDone                       (* <-r.Context().Done() *)
| ChanClosed                    (* event, ok := <-ResultChan() with !ok *)
| Recv (event : watch.Event).   (* an event was received *)

(** ** Server configuration and route table *)

Definition HandlerFunc : Type := ResponseWriter -> Request -> Run.

Definition CustomResourceHandlerFunc : Type :=
  string -> string -> ResponseWriter -> Request -> Run.

(** A nil handler is [None]. *)
Record CustomResource := mkCustomResource {
  CreateHandler : option CustomResourceHandlerFunc;
  GetHandler : option CustomResourceHandlerFunc;
  ListHandler : option CustomResourceHandlerFunc;
  ReplaceHandler : option CustomResourceHandlerFunc;
  DeleteHandler : option CustomResourceHandlerFunc;
  WatchHandler : option CustomResourceHandlerFunc }.

(** [RawEndpoints] is a Go map: the list holds its entries in the order
    the [range] statement visits them (a nil function is [None]). *)
Record APIKind := mkAPIKind {
  ApiResource : APIResource;
  RawEndpoints : list (string * option HandlerFunc);
  Resources : list Resource;
  CustomResources : list CustomResource }.

(** The closures stored in [resourceHandlersNamespaced], with the
    variable each one captures. *)
Inductive NamespacedHandler :=
| nsResource (res : Resource)
| nsCustomResource (res : CustomResource).

(** The handlers [NewServer] registers on the multiplexer: a function
    literal of the source with the variables it captures. *)
Inductive Handler :=
| healthz
| readyz
| apis (group version : string)
| rawEndpoint (fn : HandlerFunc)
| resourceCollection (res : Resource)
| resourceItem (prefix : string) (res : Resource)
| customCollection (res : CustomResource)
| customItem (prefix : string) (res : CustomResource)
| discovery (groupVersion : string) (apiResources : list APIResource)
| namespaces (prefix : string) (handlers : gmap string NamespacedHandler).

(** [http.ServeMux], as a table from patterns to handlers. *)
Abbreviation ServeMux := (gmap string Handler).

Record Server := mkServer {
  KubeClient : Client;
  DynamicKubeCluient : DynamicClient;
  port : string;
  certFile : string;
  keyFile : string;
  mux : ServeMux }.

Module ServerConfig.
Record t := mk {
  KubeClient : Client;
  DynamicKubeClient : DynamicClient;
  Port : string;
  CertFile : string;
  KeyFile : string;
  Group : string;
  Version : string;
  APIKinds : list APIKind }.
End ServerConfig.

(** ** [handleResourceFunc] *)

(** [limit]: 500 unless the query value parses to [0 < l <= 1000]. *)
Definition effective_limit (rawLimit : string) : Z :=
  if String.eqb rawLimit "" then 500
  else match Go.ParseInt rawLimit with
       | Some l => if (0 <? l) && (l <=? 1000) then l else 500
       | None => 500
       end.

(** [timeoutSeconds]: 60 unless the query value parses to a positive number. *)
Definition effective_timeout (rawTimeoutSec : string) : Z :=
  if String.eqb rawTimeoutSec "" then 60
  else match Go.ParseInt rawTimeoutSec with
       | Some v => if 0 <? v then v else 60
       | None => 60
       end.

(** [sendInitial := rv == "" || rv == "0"], overridden by a non-empty
    [sendInitialEvents] query value. *)
Definition effective_sendInitial (rv sip : string) : bool :=
  if String.eqb sip "" then String.eqb rv "" || String.eqb rv "0"
  else Go.EqualFold sip "true".

(** [fs := query fieldSelector; if name != "" { fs = "metadata.name=" + name }] *)
Definition watch_fieldSelector (q : Go.Values) (name : string) : string :=
  if String.eqb name "" then Go.Get q "fieldSelector"
  else "metadata.name=" +:+ name.

Definition watch_listOpts (q : Go.Values) (name : string) : WatchListOptions :=
  let rv := Go.Get q "resourceVersion" in
  {| woResourceVersion := rv;
     woResourceVersionMatch := parse_rvm (Go.Get q "resourceVersionMatch");
     woTimeoutSeconds := effective_timeout (Go.Get q "timeoutSeconds");
     woSendInitialEvents :=
       effective_sendInitial rv (Go.Get q "sendInitialEvents");
     woWatch := true;
     woAllowWatchBookmarks := Go.EqualFold (Go.Get q "allowWatchBookmarks") "true";
     woLabelSelector := Go.Get q "labelSelector";
     woFieldSelector := watch_fieldSelector q name |}.

(** [checkWriteHeaderCode] of [net/http]: [WriteHeader] panics on a status
    code outside 100..999. *)
Definition validWriteHeaderCode (code : Z) : bool :=
  (100 <=? code) && (code <=? 999).

(** The [for { select { ... } }] loop of the watch branch.  [n] counts the
    documents encoded so far; the list gives the outcome of each successive
    [select].  When it runs out the handler is still blocked.

    The status code of an [ERROR] event goes to [http.Error] unchecked.
    While no document has been written ([n = 0]) the header is still
    pending, and the [WriteHeader] inside [http.Error] panics on a code
    outside 100..999; once a document is out, [WriteHeader] is superfluous,
    returns without looking at the code, and the message is written into
    the stream. *)
Fixpoint watchLoop (watchCallback : option ResourceWatchCallback)
    (newKind : GroupVersionKind) (namespace name : string)
    (w : ResponseWriter) (allowBookmarks : bool)
    (n : nat) (selects : list SelectOutcome) : Run :=
  match selects with
  | [] => ([], Blocked)
  | CtxDone :: _ => ret [EWatcherStop]
  | ChanClosed :: _ => ret []
  | Recv event :: rest =>
      if String.eqb (watch.evType event) watch.Error then
        match watch.evObject event with
        | Some (StatusObj code message) =>
            if (n =? 0)%nat && negb (validWriteHeaderCode code) then
              ([], Panicked ("invalid WriteHeader code " +:+ pretty code))
            else
              ret [EHttpError ("watch error: " +:+ message) code]
        | _ =>
            ret [EHttpError "watch error: unknown" http.StatusInternalServerError]
        end
      else if String.eqb (watch.evType event) watch.Bookmark then
        if allowBookmarks then
          match encodeErr w n (json_of_Event event) with
          | Some err =>
              ret [EHttpError ("failed to send bookmark: " +:+ err)
                              http.StatusInternalServerError]
          | None =>
              prepend [EEncode (json_of_Event event); EFlush]
                (watchLoop watchCallback newKind namespace name w
                           allowBookmarks (S n) rest)
          end
        else
          watchLoop watchCallback newKind namespace name w allowBookmarks n rest
      else
        match watch.evObject event with
        | None =>
            watchLoop watchCallback newKind namespace name w allowBookmarks n rest
        | Some obj =>
            match SetRuntimeGroupVersionKind newKind obj with
            | Unstructured unstructuredObj =>
                let called :=
                  match watchCallback with
                  | None => Ok (AnyRuntime (Unstructured unstructuredObj))
                  | Some cb => cb namespace name unstructuredObj
                  end in
                match called with
                | Err err =>
                    ret [EHttpError ("watch error: " +:+ err)
                                    http.StatusInternalServerError]
                | Ok res =>
                    let doc := json_of_watchEvent
                                 (mkWatchEvent (watch.evType event) res) in
                    match encodeErr w n doc with
                    | Some err =>
                        ret [EHttpError
                               ("failed to encode watch response: " +:+ err)
                               http.StatusInternalServerError]
                    | None =>
                        prepend [EEncode doc; EFlush]
                          (watchLoop watchCallback newKind namespace name w
                                     allowBookmarks (S n) rest)
                    end
                end
            | _ =>
                ret [EHttpError "failed to cast to unstructured"
                                http.StatusInternalServerError]
            end
        end
  end.

(** The watch branch ([watch=true]), from the flusher check on. *)
Definition handleWatch (s_dyn : DynamicClient)
    (watchCallback : option ResourceWatchCallback)
    (newGVR : GroupVersionResource) (newKind : GroupVersionKind)
    (namespace name : string) (w : ResponseWriter) (r : Request)
    (selects : list SelectOutcome) : Run :=
  if negb (isFlusher w) then
    ret [EHttpError "streaming not supported by server"
                    http.StatusInternalServerError]
  else
    let hdr := ESetHeader "Content-Type"
                          "application/json;stream=watch; charset=utf-8" in
    let listOpts := watch_listOpts (Query r) name in
    if woSendInitialEvents listOpts
       && negb (rvm_is_NotOlderThan (woResourceVersionMatch listOpts)) then
      ret [hdr; EHttpError
                  "sendInitialEvents requires resourceVersionMatch=NotOlderThan"
                  http.StatusBadRequest]
    else
      match Watch s_dyn newGVR namespace listOpts with
      | Some err =>
          if apierrors.IsGoneStatus err then
            ret [hdr; EDynWatch newGVR namespace listOpts;
                 EHttpError (errText err) http.StatusGone]
          else
            ret [hdr; EDynWatch newGVR namespace listOpts;
                 EHttpError ("failed to initialize watcher: " +:+ errText err)
                            http.StatusInternalServerError]
      | None =>
          prepend [hdr; EDynWatch newGVR namespace listOpts]
            (watchLoop watchCallback newKind namespace name w
                       (woAllowWatchBookmarks listOpts) 0 selects)
      end.

(** [meta.ExtractList]: the items of a list object, an error for anything
    that is not a list. *)
Definition ExtractList (o : RuntimeObject) : option (list RuntimeObject) :=
  match o with
  | ListObj l => Some (map Typed (Items l))
  | _ => None
  end.

(** The [client.ListOptions] of the list branch, or the message of the
    400 for a selector that does not parse. *)
Definition list_listOpts (k8s : Apimachinery) (q : Go.Values)
    (namespace : string) : result string ListOptions :=
  let limit := effective_limit (Go.Get q "limit") in
  let ls := Go.Get q "labelSelector" in
  match (if String.eqb ls "" then Ok None
         else match labels_Parse k8s ls with
              | Ok sel => Ok (Some sel)
              | Err e => Err e
              end) with
  | Err e => Err ("failed to parse labelSelector: " +:+ e)
  | Ok labelSel =>
      let fs := Go.Get q "fieldSelector" in
      match (if String.eqb fs "" then Ok None
             else match fields_ParseSelector k8s fs with
                  | Ok sel => Ok (Some sel)
                  | Err e => Err e
                  end) with
      | Err e => Err ("failed to parse fieldSelector: " +:+ e)
      | Ok fieldSel =>
          Ok {| loNamespace := namespace;
                loLimit := limit;
                loContinue := Go.Get q "continue";
                loLabelSelector := labelSel;
                loFieldSelector := fieldSel;
                loRawResourceVersion := Go.Get q "resourceVersion";
                loRawResourceVersionMatch :=
                  parse_rvm (Go.Get q "resourceVersionMatch") |}
      end
  end.

(** The common tail of the get and list branches, from setting the
    [Content-Type] header on. *)
Definition respond (listCallback : option ResourceListCallback)
    (newKind newKindList : GroupVersionKind) (namespace name : string)
    (w : ResponseWriter) (items : ObjectList) : Run :=
  let hdr := ESetHeader "Content-Type" "application/json; charset=utf-8" in
  let items := SetListGroupVersionKind newKindList items in
  if (length (Items items) =? 0)%nat then
    let doc := JDoc (JValue (AnyRuntime (ListObj items))) in
    match encodeErr w 0 doc with
    | Some err =>
        ret [hdr; EHttpError ("failed to encode response: " +:+ err)
                             http.StatusInternalServerError]
    | None => ret [hdr; EEncode doc]
    end
  else
    let items := mkObjectList (listKind items) (listResourceVersion items)
                              (map (SetGroupVersionKind newKind) (Items items)) in
    let called :=
      match listCallback with
      | None => Ok (AnyRuntime (ListObj items))
      | Some cb => cb namespace name items
      end in
    match called with
    | Err err =>
        ret [hdr; EHttpError ("failed to list tasks: " +:+ err)
                             http.StatusInternalServerError]
    | Ok res =>
        let unwrapped : result string Any :=
          if String.eqb name "" then Ok res
          else match res with
               | AnyRuntime itemList =>
                   match ExtractList itemList with
                   | Some (item0 :: _) => Ok (AnyRuntime item0)
                   | Some [] =>
                       Err "runtime error: index out of range [0] with length 0"
                   | None => Ok res
                   end
               | _ => Ok res
               end in
        match unwrapped with
        | Err p => ([hdr], Panicked p)
        | Ok res =>
            let doc := JDoc (JValue res) in
            match encodeErr w 0 doc with
            | Some err =>
                ret [hdr; EHttpError ("failed to encode response: " +:+ err)
                                     http.StatusInternalServerError]
            | None => ret [hdr; EEncode doc]
            end
        end
    end.

(** The get branch ([name != ""], no watch).  The error of [meta.SetList]
    is dropped: when the list cannot hold the object it stays as
    [createNewList] made it, with the object's resource version. *)
Definition handleGet (k8s : Apimachinery) (kube : Client)
    (createNew : ResourceCreateNew)
    (createNewList : ResourceCreateNewList)
    (listCallback : option ResourceListCallback)
    (newKind newKindList : GroupVersionKind) (namespace name : string)
    (w : ResponseWriter) : Run :=
  let items := snd createNewList in
  let item := snd createNew in
  match Get kube namespace name item with
  | Err err =>
      match IgnoreNotFound err with
      | Some _ =>
          ret [EKubeGet namespace name;
               EHttpError ("failed to get task: " +:+ errText err)
                          http.StatusInternalServerError]
      | None => ret [EKubeGet namespace name; EHttpNotFound]
      end
  | Ok item =>
      let items := mkObjectList (listKind items) (objResourceVersion item)
                                (Items items) in
      let items := match SetList k8s items [item] with
                   | Some set => set
                   | None => items
                   end in
      prepend [EKubeGet namespace name]
        (respond listCallback newKind newKindList namespace name w items)
  end.

(** The list branch ([name == ""], no watch). *)
Definition handleList (k8s : Apimachinery) (kube : Client)
    (createNewList : ResourceCreateNewList)
    (listCallback : option ResourceListCallback)
    (newKind newKindList : GroupVersionKind) (namespace name : string)
    (w : ResponseWriter) (r : Request) : Run :=
  let items := snd createNewList in
  match list_listOpts k8s (Query r) namespace with
  | Err msg => ret [EHttpError msg http.StatusBadRequest]
  | Ok listOpts =>
      match List kube items listOpts with
      | Err err =>
          if apierrors.IsGoneStatus err then
            ret [EKubeList listOpts; EHttpError (errText err) http.StatusGone]
          else
            ret [EKubeList listOpts;
                 EHttpError ("failed to list tasks: " +:+ errText err)
                            http.StatusInternalServerError]
      | Ok items =>
          prepend [EKubeList listOpts]
            (respond listCallback newKind newKindList namespace name w items)
      end
  end.

Definition handleResourceFunc (k8s : Apimachinery) (s : Server)
    (createNew : ResourceCreateNew) (createNewList : ResourceCreateNewList)
    (listCallback : option ResourceListCallback)
    (watchCallback : option ResourceWatchCallback)
    (namespace name : string) (w : ResponseWriter) (r : Request)
    (selects : list SelectOutcome) : Run :=
  if negb (String.eqb (Method r) http.MethodGet) then
    ret [EHttpError "only GET" http.StatusMethodNotAllowed]
  else
    let newGVR := fst createNew in
    match KindFor (KubeClient s) newGVR with
    | Err err =>
        ret [EHttpError ("failed to find kind: " +:+ err)
                        http.StatusInternalServerError]
    | Ok newKind =>
        let newListGVR := fst createNewList in
        match KindFor (KubeClient s) newListGVR with
        | Err err =>
            ret [EHttpError ("failed to find list kind: " +:+ err)
                            http.StatusInternalServerError]
        | Ok newKindList =>
            if Go.EqualFold (Go.Get (Query r) "watch") "true" then
              handleWatch (DynamicKubeCluient s) watchCallback newGVR newKind
                          namespace name w r selects
            else if negb (String.eqb name "") then
              handleGet k8s (KubeClient s) createNew createNewList listCallback
                        newKind newKindList namespace name w
            else
              handleList k8s (KubeClient s) createNewList listCallback
                         newKind newKindList namespace name w r
        end
    end.

(** The status line the client sees: that of the first [http.Error] or
    [WriteHeader], or 200 when the body is started first (by a write, an
    encoded document or a flush). *)
Fixpoint response_status (t : list Effect) : option Z :=
  match t with
  | [] => None
  | EHttpError _ code :: _ => Some code
  | EWriteHeader code :: _ => Some code
  | EWrite _ :: _ => Some http.StatusOK
  | EEncode _ :: _ => Some http.StatusOK
  | EFlush :: _ => Some http.StatusOK
  | _ :: t' => response_status t'
  end.

(** ** [NewServer] *)

(** What a panic carries: the string the source panics with, or one of
    the two panics of [http.ServeMux.HandleFunc]. *)
Inductive PanicValue :=
| PanicString (msg : string)
| MuxMultipleRegistrations (pattern : string)
| MuxNilHandler.

Definition bind {E A B : Type} (m : result E A) (f : A -> result E B)
  : result E B :=
  match m with
  | Ok a => f a
  | Err e => Err e
  end.

Notation "'let!' x ':=' m 'in' k" := (bind m (fun x => k))
  (at level 10, x name, m at level 100, k at level 200).

(** [mux.HandleFunc(pattern, handler)]: panics on a nil handler and on a
    pattern that is already registered.  The table is keyed by the pattern
    string.  The multiplexer of Go 1.22 and later refuses more than this: a
    pattern it cannot parse, and a pattern that overlaps a registered one
    without being identical to it.  What is proved of [NewServer] is
    therefore stated for a construction that completed, or for a step that
    follows a registration that succeeded, or concludes only that
    construction panics. *)
Definition HandleFunc (m : ServeMux) (pattern : string)
    (handler : option Handler) : result PanicValue ServeMux :=
  match handler with
  | None => Err MuxNilHandler
  | Some h =>
      match m !! pattern with
      | Some _ => Err (MuxMultipleRegistrations pattern)
      | None => Ok (<[pattern := h]> m)
      end
  end.

(** ["/apis/" + config.Group + "/" + config.Version] *)
Definition groupVersionPath (config : ServerConfig.t) : string :=
  "/apis/" +:+ ServerConfig.Group config +:+ "/" +:+ ServerConfig.Version config.

(** [".../" + ak.ApiResource.Name] *)
Definition collectionPattern (config : ServerConfig.t) (ak : APIKind) : string :=
  groupVersionPath config +:+ "/" +:+ Name (ApiResource ak).

Definition itemPattern (config : ServerConfig.t) (ak : APIKind) : string :=
  collectionPattern config ak +:+ "/".

(** The variables of [NewServer] that the loop over [config.APIKinds]
    updates. *)
Record Building := mkBuilding {
  bMux : ServeMux;
  apiResources : list APIResource;
  existingApiResources : gset string;
  resourceHandlersNamespaced : gmap string NamespacedHandler }.

(** [for ep, fn := range ak.RawEndpoints { HandleFunc(... + ep, fn) }] *)
Fixpoint registerRawEndpoints (config : ServerConfig.t) (ak : APIKind)
    (eps : list (string * option HandlerFunc)) (m : ServeMux)
  : result PanicValue ServeMux :=
  match eps with
  | [] => Ok m
  | (ep, fn) :: eps' =>
      let! m' := HandleFunc m (collectionPattern config ak +:+ ep)
                       (option_map rawEndpoint fn) in
      registerRawEndpoints config ak eps' m'
  end.

(** One iteration of [for ii := range ak.Resources]. *)
Definition registerResource (config : ServerConfig.t) (ak : APIKind)
    (res : Resource)
    (st : ServeMux * gmap string NamespacedHandler)
  : result PanicValue (ServeMux * gmap string NamespacedHandler) :=
  let '(m, nsh) := st in
  let! m1 := HandleFunc m (collectionPattern config ak)
                   (Some (resourceCollection res)) in
  if negb (Namespaced (ApiResource ak)) then
    let! m2 := HandleFunc m1 (itemPattern config ak)
                     (Some (resourceItem (itemPattern config ak) res)) in
    Ok (m2, nsh)
  else
    Ok (m1, <[Name (ApiResource ak) := nsResource res]> nsh).

(** One iteration of [for ii := range ak.CustomResources]. *)
Definition registerCustomResource (config : ServerConfig.t) (ak : APIKind)
    (res : CustomResource)
    (st : ServeMux * gmap string NamespacedHandler)
  : result PanicValue (ServeMux * gmap string NamespacedHandler) :=
  let '(m, nsh) := st in
  let! m1 := HandleFunc m (collectionPattern config ak)
                   (Some (customCollection res)) in
  if negb (Namespaced (ApiResource ak)) then
    let! m2 := HandleFunc m1 (itemPattern config ak)
                     (Some (customItem (itemPattern config ak) res)) in
    Ok (m2, nsh)
  else
    Ok (m1, <[Name (ApiResource ak) := nsCustomResource res]> nsh).

(** A [for] loop over a slice whose body may panic. *)
Fixpoint forEach {A S : Type} (body : A -> S -> result PanicValue S)
    (l : list A) (st : S) : result PanicValue S :=
  match l with
  | [] => Ok st
  | a :: l' => let! st' := body a st in forEach body l' st'
  end.

(** The body of [for i := range config.APIKinds]. *)
Definition registerAPIKind (config : ServerConfig.t) (ak : APIKind)
    (b : Building) : result PanicValue Building :=
  if bool_decide (Name (ApiResource ak) ∈ existingApiResources b) then
    Err (PanicString ("APIResource must be unique: " +:+ Name (ApiResource ak)))
  else
    let existing := {[ Name (ApiResource ak) ]} ∪ existingApiResources b in
    let resources := apiResources b ++ [ApiResource ak] in
    let! m1 := registerRawEndpoints config ak (RawEndpoints ak) (bMux b) in
    let! st2 := forEach (registerResource config ak) (Resources ak)
                   (m1, resourceHandlersNamespaced b) in
    let! st3 := forEach (registerCustomResource config ak) (CustomResources ak) st2 in
    Ok (mkBuilding (fst st3) resources existing (snd st3)).

(** The state before the loop: the probes and [/apis] are registered. *)
Definition initialMux (config : ServerConfig.t) : result PanicValue ServeMux :=
  let! m1 := HandleFunc ∅ "/healthz" (Some healthz) in
  let! m2 := HandleFunc m1 "/readyz" (Some readyz) in
  HandleFunc m2 "/apis"
    (Some (apis (ServerConfig.Group config) (ServerConfig.Version config))).

Definition registerAPIKinds (config : ServerConfig.t) (kinds : list APIKind)
    (b : Building) : result PanicValue Building :=
  forEach (registerAPIKind config) kinds b.

(** [NewServer(config)]: the server, or the panic that aborts it. *)
Definition NewServer (config : ServerConfig.t) : result PanicValue Server :=
  let! m0 := initialMux config in
  let! b := registerAPIKinds config (ServerConfig.APIKinds config)
                        (mkBuilding m0 [] ∅ ∅) in
  let! m1 := HandleFunc (bMux b) (groupVersionPath config)
          (Some (discovery (ServerConfig.Group config +:+ "/"
                              +:+ ServerConfig.Version config)
                           (apiResources b))) in
  let! m2 := (if bool_decide (resourceHandlersNamespaced b = ∅) then Ok m1
         else HandleFunc m1 (groupVersionPath config +:+ "/namespaces/")
                (Some (namespaces (groupVersionPath config +:+ "/namespaces/")
                                  (resourceHandlersNamespaced b)))) in
  Ok (mkServer (ServerConfig.KubeClient config)
               (ServerConfig.DynamicKubeClient config)
               (ServerConfig.Port config)
               (ServerConfig.CertFile config)
               (ServerConfig.KeyFile config)
               m2).

(** ** Classifying effects *)

Definition is_backing_call (e : Effect) : bool :=
  match e with
  | EKubeGet _ _ | EKubeList _ | EDynWatch _ _ _ => true
  | _ => false
  end.

Definition is_stop (e : Effect) : bool :=
  match e with EWatcherStop => true | _ => false end.

Definition is_encode (e : Effect) : bool :=
  match e with EEncode _ => true | _ => false end.

(** Number of [watcher.Stop()] calls in a trace. *)
Definition stops (t : list Effect) : nat := length (List.filter is_stop t).

(** A document of the wire shape [{"type": ..., "object": ...}]. *)
Definition has_wire_shape (doc : Json) : bool :=
  match doc with
  | JObject [(k1, JString _); (k2, _)] =>
      String.eqb k1 "type" && String.eqb k2 "object"
  | _ => false
  end.

(** Every encoded document is directly followed by a flush. *)
Fixpoint flushed_each (t : list Effect) : bool :=
  match t with
  | [] => true
  | EEncode _ :: t' =>
      match t' with
      | EFlush :: _ => flushed_each t'
      | _ => false
      end
  | _ :: t' => flushed_each t'
  end.

(** The query values for which the list branch keeps its default limit. *)
Definition limit_ignored (rawLimit : string) : Prop :=
  rawLimit = ""
  \/ Go.ParseInt rawLimit = None
  \/ exists l, Go.ParseInt rawLimit = Some l /\ (l <= 0 \/ 1000 < l).

(** The request with one query parameter removed. *)
Definition without_param (key : string) (r : Request) : Request :=
  mkRequest (Method r) (Path r) (delete key (Query r)).

(** The resource names of a sequence of descriptors, in order. *)
Definition names (kinds : list APIKind) : list string :=
  map (fun ak => Name (ApiResource ak)) kinds.

(** Handler registrations an [APIKind] makes for its collection route. *)
Definition collection_registrations (ak : APIKind) : nat :=
  (length (Resources ak) + length (CustomResources ak))%nat.

(** ** The function literals registered by [NewServer] *)

(** [_ = json.NewEncoder(w).Encode(v)]: the error is dropped. *)
Definition encodeIgnoringError (w : ResponseWriter) (doc : Json) : list Effect :=
  match encodeErr w 0 doc with
  | Some _ => []
  | None => [EEncode doc]
  end.

Definition callCustom (h : option CustomResourceHandlerFunc)
    (namespace name : string) (w : ResponseWriter) (r : Request) : Run :=
  match h with
  | Some f => f namespace name w r
  | None => ret []
  end.

(** The [switch r.Method] of the collection route of a custom resource. *)
Definition customCollectionVerbs (res : CustomResource) (w : ResponseWriter)
    (r : Request) : Run :=
  if String.eqb (Method r) http.MethodGet then
    match (if Go.EqualFold (Go.Get (Query r) "watch") "true"
           then WatchHandler res else None) with
    | Some h => h "" "" w r
    | None => callCustom (ListHandler res) "" "" w r
    end
  else ret [EHttpNotFound].

(** The [switch r.Method] of the item route and of the namespaced handler
    of a custom resource. *)
Definition customVerbs (res : CustomResource) (namespace name : string)
    (w : ResponseWriter) (r : Request) : Run :=
  if String.eqb (Method r) http.MethodGet then
    match (if Go.EqualFold (Go.Get (Query r) "watch") "true"
           then WatchHandler res else None) with
    | Some h => h namespace name w r
    | None =>
        match (if String.eqb name "" then ListHandler res else None) with
        | Some h => h namespace name w r
        | None => callCustom (GetHandler res) namespace name w r
        end
    end
  else if String.eqb (Method r) http.MethodPut then
    callCustom (ReplaceHandler res) namespace name w r
  else if String.eqb (Method r) http.MethodDelete then
    callCustom (DeleteHandler res) namespace name w r
  else if String.eqb (Method r) http.MethodPost then
    callCustom (CreateHandler res) "" "" w r
  else ret [EHttpNotFound].

Definition serveResource (k8s : Apimachinery) (s : Server) (res : Resource)
    (namespace name : string) (w : ResponseWriter) (r : Request)
    (selects : list SelectOutcome) : Run :=
  handleResourceFunc k8s s (CreateNew res) (CreateNewList res)
                     (ListCallback res) (WatchCallback res)
                     namespace name w r selects.

Definition serveNamespaced (k8s : Apimachinery) (s : Server)
    (h : NamespacedHandler) (namespace name : string) (w : ResponseWriter)
    (r : Request) (selects : list SelectOutcome) : Run :=
  match h with
  | nsResource res => serveResource k8s s res namespace name w r selects
  | nsCustomResource res => customVerbs res namespace name w r
  end.

(** What each registered handler does with a request. *)
Definition serveHandler (k8s : Apimachinery) (s : Server) (h : Handler)
    (w : ResponseWriter) (r : Request) (selects : list SelectOutcome) : Run :=
  match h with
  | healthz => ret [EWriteHeader http.StatusOK; EWrite "ok"]
  | readyz => ret [EWriteHeader http.StatusOK; EWrite "ready"]
  | apis group version =>
      ret (ESetHeader "Content-Type" "application/json; charset=utf-8"
           :: encodeIgnoringError w
                (JDoc (JValue (AnyAPIGroupList group version))))
  | rawEndpoint fn => fn w r
  | resourceCollection res => serveResource k8s s res "" "" w r selects
  | resourceItem prefix res =>
      match Go.Split (Go.TrimPrefix (Path r) prefix) with
      | [] => ([], Panicked "runtime error: index out of range [0] with length 0")
      | part0 :: _ =>
          if String.eqb part0 "" then ret [EHttpNotFound]
          else serveResource k8s s res "" part0 w r selects
      end
  | customCollection res => customCollectionVerbs res w r
  | customItem prefix res =>
      match Go.Split (Go.TrimPrefix (Path r) prefix) with
      | [] => ([], Panicked "runtime error: index out of range [0] with length 0")
      | part0 :: _ =>
          if String.eqb part0 "" then ret [EHttpNotFound]
          else customVerbs res "" part0 w r
      end
  | discovery groupVersion resources =>
      ret (ESetHeader "Content-Type" "application/json; charset=utf-8"
           :: encodeIgnoringError w
                (JDoc (JValue (AnyAPIResourceList groupVersion resources))))
  | namespaces prefix handlers =>
      match Go.Split (Go.TrimPrefix (Path r) prefix) with
      | namespace :: part1 :: rest =>
          match handlers !! part1 with
          | None => ret [EHttpNotFound]
          | Some handlerFunc =>
              let name := match rest with
                          | [part2] => part2
                          | _ => ""
                          end in
              serveNamespaced k8s s handlerFunc namespace name w r selects
          end
      | _ => ret [EHttpNotFound]
      end
  end.

(** What the two registration loops have in common: the collection route
    is registered first, then the item route or the namespaced handler. *)
Definition registerRoutes (config : ServerConfig.t) (ak : APIKind)
    (coll item : Handler) (nsHandler : NamespacedHandler)
    (st : ServeMux * gmap string NamespacedHandler)
  : result PanicValue (ServeMux * gmap string NamespacedHandler) :=
  let! m1 := HandleFunc st.1 (collectionPattern config ak) (Some coll) in
  if negb (Namespaced (ApiResource ak)) then
    let! m2 := HandleFunc m1 (itemPattern config ak) (Some item) in
    Ok (m2, st.2)
  else
    Ok (m1, <[Name (ApiResource ak) := nsHandler]> st.2).

(** The route table before the loop over [config.APIKinds]. *)
Definition initialRoutes (config : ServerConfig.t) : ServeMux :=
  <["/apis" := apis (ServerConfig.Group config) (ServerConfig.Version config)]>
    (<["/readyz" := readyz]> (<["/healthz" := healthz]> ∅)).

(** The variables of [NewServer] when the loop starts. *)
Definition initialBuilding (config : ServerConfig.t) : Building :=
  mkBuilding (initialRoutes config) [] ∅ ∅.

(** ** Concrete requests and collaborators

    A resource [widgets] of the group [example.com/v1], a backing client
    whose answers are given, and requests built from a list of query
    parameters. *)

Module Example.

Definition widgets : GroupVersionResource := GVR "example.com" "v1" "widgets".
Definition widgetlist : GroupVersionResource := GVR "example.com" "v1" "widgetlist".
Definition noKind : GroupVersionKind := GVK "" "" "".
Definition Widget : GroupVersionKind := GVK "example.com" "v1" "Widget".
Definition WidgetList : GroupVersionKind := GVK "example.com" "v1" "WidgetList".

Definition kindFor (gvr : GroupVersionResource)
  : result string GroupVersionKind :=
  if String.eqb (gvrResource gvr) "widgets" then Ok Widget else Ok WidgetList.

Definition bar : Object := mkObject noKind "41" "bar".
Definition baz : Object := mkObject noKind "42" "baz".

Definition client (got : result BackingError Object)
    (listed : result BackingError ObjectList) : Client :=
  mkClient kindFor (fun _ _ _ => got) (fun _ _ => listed).

Definition server (got : result BackingError Object)
    (listed : result BackingError ObjectList)
    (watchErr : option BackingError) : Server :=
  mkServer (client got listed) (mkDynamicClient (fun _ _ _ => watchErr))
           ":443" "tls.crt" "tls.key" ∅.

(** A backing store holding [bar] and [baz]; watches open. *)
Definition store : Server :=
  server (Ok bar) (Ok (mkObjectList noKind "42" [bar; baz])) None.

(** The error of a stale resource version: an [*apierrors.StatusError]
    with reason [Expired] and code 410. *)
Definition gone : BackingError :=
  mkErr "too old resource version"
        (Some (mkStatus "Expired" 410 "too old resource version")).

Definition notFound : BackingError :=
  mkErr "widgets.example.com bar not found"
        (Some (mkStatus "NotFound" 404 "not found")).

Definition k8s : Apimachinery :=
  mkApimachinery (fun s => Ok s) (fun s => Ok s) (fun _ _ => true).

(** A writer that can flush and never fails to encode. *)
Definition writer : ResponseWriter := mkResponseWriter true (fun _ _ => None).

Definition query (params : list (string * string)) : Go.Values :=
  list_to_map (map (fun p => (fst p, [snd p])) params).

Definition GET (path : string) (params : list (string * string)) : Request :=
  mkRequest "GET" path (query params).

Definition resource : Resource :=
  mkResource (widgets, mkObject noKind "" "")
             (widgetlist, mkObjectList noKind "" []) None None.

(** A list-transform hook that filters every item out. *)
Definition dropAll : ResourceListCallback :=
  fun _ _ items =>
    Ok (AnyRuntime (ListObj (mkObjectList (listKind items)
                                          (listResourceVersion items) []))).

Definition filtered : Resource :=
  mkResource (CreateNew resource) (CreateNewList resource) (Some dropAll) None.

(** A writer whose first [Encode] fails. *)
Definition brokenWriter : ResponseWriter :=
  mkResponseWriter true (fun _ _ => Some "broken pipe").

(** A watch-transform hook that fails. *)
Definition failing : Resource :=
  mkResource (CreateNew resource) (CreateNewList resource) None
             (Some (fun _ _ _ => Err "conversion failed")).

(** [handleResourceFunc] for a resource on a server, cluster scoped. *)
Definition serveOn (w : ResponseWriter) (s : Server) (res : Resource)
    (name : string) (r : Request) (selects : list SelectOutcome) : Run :=
  handleResourceFunc k8s s (CreateNew res) (CreateNewList res)
                     (ListCallback res) (WatchCallback res) "" name w r
                     selects.

Definition serve : Server -> Resource -> string -> Request ->
                   list SelectOutcome -> Run :=
  serveOn writer.

(** [GET /apis/example.com/v1/widgets?watch=true] *)
Definition watchWidgets : Request :=
  GET "/apis/example.com/v1/widgets" [("watch", "true")].

(** An [ADDED] event whose object is not an [*unstructured.Unstructured]. *)
Definition addedTyped : watch.Event :=
  watch.mkEvent watch.Added (Some (Typed (mkObject noKind "41" "bar"))).

Definition bookmark : watch.Event :=
  watch.mkEvent watch.Bookmark (Some (Unstructured (mkObject noKind "43" ""))).

Definition added : watch.Event :=
  watch.mkEvent watch.Added (Some (Unstructured bar)).

Definition expired : watch.Event :=
  watch.mkEvent watch.Error (Some (StatusObj 410 "too old resource version")).

Definition config (kinds : list APIKind) : ServerConfig.t :=
  ServerConfig.mk (client (Ok bar) (Ok (mkObjectList noKind "" [])))
                  (mkDynamicClient (fun _ _ _ => None))
                  ":443" "tls.crt" "tls.key" "example.com" "v1" kinds.

Definition kind (name : string) (namespaced : bool) (rs : list Resource)
    (cs : list CustomResource) : APIKind :=
  mkAPIKind (mkAPIResource name namespaced "Widget" ["get"; "list"; "watch"])
            [] rs cs.

End Example.

(** ** Further vocabulary for runs *)

(** An [http.Error] ends the run: nothing follows it in the trace and the
    handler has returned. *)
Fixpoint error_ends (t : list Effect) (o : Outcome) : bool :=
  match t with
  | [] => true
  | EHttpError _ _ :: t' =>
      match t', o with
      | [], Returned => true
      | _, _ => false
      end
  | _ :: t' => error_ends t' o
  end.

(** Number of calls of the backing client in a trace. *)
Definition backing_calls (t : list Effect) : nat :=
  length (List.filter is_backing_call t).

(** Number of encoded documents in a trace. *)
Definition documents (t : list Effect) : nat :=
  length (List.filter is_encode t).

(** Hooks that hand back what they are given. *)
Definition identityListCallback : ResourceListCallback :=
  fun _ _ items => Ok (AnyRuntime (ListObj items)).

Definition identityWatchCallback : ResourceWatchCallback :=
  fun _ _ unstructuredObj => Ok (AnyRuntime (Unstructured unstructuredObj)).

(** The request with another query. *)
Definition with_query (q : Go.Values) (r : Request) : Request :=
  mkRequest (Method r) (Path r) q.

(** The events the watch loop drops without a trace: a bookmark when
    bookmarks are not allowed, and an event (neither error nor bookmark)
    whose object is nil. *)
Definition dropped (allowBookmarks : bool) (o : SelectOutcome) : bool :=
  match o with
  | Recv event =>
      negb (String.eqb (watch.evType event) watch.Error)
      && (if String.eqb (watch.evType event) watch.Bookmark
          then negb allowBookmarks
          else match watch.evObject event with
               | None => true
               | Some _ => false
               end)
  | _ => false
  end.

(** A change event: a type and an [*unstructured.Unstructured] object. *)
Definition change (e : string * Object) : SelectOutcome :=
  Recv (watch.mkEvent (fst e) (Some (Unstructured (snd e)))).

(** The pattern of the shared handler of the namespaced resources. *)
Definition namespacesPattern (config : ServerConfig.t) : string :=
  groupVersionPath config +:+ "/namespaces/".

(** A path segment: a string without a slash. *)
Fixpoint slash_free (s : string) : bool :=
  match s with
  | EmptyString => true
  | String c s' => negb (Ascii.eqb c "/"%char) && slash_free s'
  end.

(** * Properties *)

(** ** Traces *)

Lemma trace_prepend pre r : trace (prepend pre r) = pre ++ trace r.
Proof. reflexivity. Qed.

Lemma outcome_prepend pre r : outcome (prepend pre r) = outcome r.
Proof. reflexivity. Qed.

Lemma trace_ret t : trace (ret t) = t.
Proof. reflexivity. Qed.

Lemma outcome_ret t : outcome (ret t) = Returned.
Proof. reflexivity. Qed.

#[local] Arguments trace : simpl never.
#[local] Arguments outcome : simpl never.
#[local] Arguments prepend : simpl never.
#[local] Arguments ret : simpl never.

Create Rewrite HintDb run.
#[local] Hint Rewrite trace_prepend outcome_prepend trace_ret outcome_ret : run.

Ltac run_simpl := repeat (autorewrite with run in *; simpl in * ).

Lemma eqb_string_true (a b : string) : String.eqb a b = true <-> a = b.
Proof. apply String.eqb_eq. Qed.

Lemma eqb_string_false (a b : string) : String.eqb a b = false <-> a <> b.
Proof. apply String.eqb_neq. Qed.

Section WatchLoop.
Variables (watchCallback : option ResourceWatchCallback)
          (newKind : GroupVersionKind) (namespace name : string)
          (w : ResponseWriter) (allowBookmarks : bool).

Local Abbreviation loop :=
  (watchLoop watchCallback newKind namespace name w allowBookmarks).

(** The loop never calls the backing client. *)
Lemma watchLoop_no_backing_call selects : forall n,
  Forall (fun e => is_backing_call e = false) (trace (loop n selects)).
Proof.
  induction selects as [|o rest IH]; intros n; simpl.
  - constructor.
  - destruct o as [| |event]; simpl; [repeat constructor..|].
    repeat case_match; run_simpl;
      repeat (constructor; [reflexivity|]); auto.
Qed.

(** [watcher.Stop()] is called at most once, and then it is the last
    thing the handler does. *)
Lemma watchLoop_stop_last selects : forall n,
  stops (trace (loop n selects)) = 0%nat
  \/ exists t, trace (loop n selects) = t ++ [EWatcherStop]
               /\ stops t = 0%nat
               /\ outcome (loop n selects) = Returned.
Proof.
  induction selects as [|o rest IH]; intros n; simpl.
  - left; reflexivity.
  - destruct o as [| |event]; simpl.
    + right. exists []. auto.
    + left; reflexivity.
    + repeat case_match; run_simpl;
        try (left; reflexivity); auto;
        (destruct (IH (S n)) as [Hz|(t & Ht & Hs & Ho)];
         [left; unfold stops in *; simpl; exact Hz
         |right; eexists (_ :: _ :: t); rewrite Ht; simpl;
          repeat split; auto]).
Qed.

(** Without a cancellation among the outcomes, [watcher.Stop()] is never
    called, however the loop ends. *)
Lemma watchLoop_stop_needs_cancel selects : forall n,
  ~ In CtxDone selects -> stops (trace (loop n selects)) = 0%nat.
Proof.
  induction selects as [|o rest IH]; intros n Hno; simpl; [reflexivity|].
  destruct o as [| |event]; simpl.
  - destruct Hno. by left.
  - reflexivity.
  - assert (Hrest : ~ In CtxDone rest) by (intros Hin; apply Hno; by right).
    repeat case_match; run_simpl; try reflexivity; auto;
      unfold stops in *; simpl; apply (IH _ Hrest).
Qed.

(** Every document the loop writes is flushed at once. *)
Lemma watchLoop_flushed_each selects : forall n,
  flushed_each (trace (loop n selects)) = true.
Proof.
  induction selects as [|o rest IH]; intros n; simpl; [reflexivity|].
  destruct o as [| |event]; simpl; try reflexivity.
  repeat case_match; run_simpl; auto.
Qed.

End WatchLoop.

(** ** The query parser *)

Lemma Get_delete_ne (q : Go.Values) (k k' : string) :
  k <> k' -> Go.Get (delete k q) k' = Go.Get q k'.
Proof. intros Hne. unfold Go.Get. by rewrite lookup_delete_ne. Qed.

Lemma Get_delete_eq (q : Go.Values) (k : string) : Go.Get (delete k q) k = "".
Proof. unfold Go.Get. by rewrite lookup_delete_eq. Qed.

(** The effective limit is the parsed value when it lies in [1,1000] and
    the default 500 in every other case. *)
Lemma effective_limit_ignored rawLimit :
  limit_ignored rawLimit -> effective_limit rawLimit = 500.
Proof.
  unfold effective_limit.
  intros [-> | [Hp | (l & Hp & Hl)]]; [reflexivity | |].
  - rewrite Hp. by destruct (String.eqb rawLimit "").
  - rewrite Hp. destruct (String.eqb rawLimit ""); [reflexivity|].
    destruct (0 <? l) eqn:H0, (l <=? 1000) eqn:H1; simpl; try reflexivity.
    apply Z.ltb_lt in H0. apply Z.leb_le in H1. lia.
Qed.

Lemma effective_limit_range rawLimit : 1 <= effective_limit rawLimit <= 1000.
Proof.
  unfold effective_limit.
  destruct (String.eqb rawLimit ""); [lia|].
  destruct (Go.ParseInt rawLimit) as [l|]; [|lia].
  destruct (0 <? l) eqn:H0, (l <=? 1000) eqn:H1; simpl; lia.
Qed.

Lemma list_listOpts_limit k8s q namespace opts :
  list_listOpts k8s q namespace = Ok opts ->
  loLimit opts = effective_limit (Go.Get q "limit").
Proof.
  unfold list_listOpts. intros H.
  repeat case_match; try discriminate; by inversion H.
Qed.

(** The list options depend on the [limit] parameter through
    [effective_limit] only. *)
Lemma list_listOpts_without_limit k8s q namespace :
  effective_limit (Go.Get q "limit") = 500 ->
  list_listOpts k8s (delete "limit" q) namespace = list_listOpts k8s q namespace.
Proof.
  intros H. unfold list_listOpts.
  rewrite Get_delete_eq, H.
  by rewrite !Get_delete_ne by discriminate.
Qed.

Lemma watch_listOpts_without_limit q name :
  watch_listOpts (delete "limit" q) name = watch_listOpts q name.
Proof.
  unfold watch_listOpts, watch_fieldSelector.
  by rewrite !Get_delete_ne by discriminate.
Qed.

(** ** The tail of the get and list branches *)

Lemma respond_no_backing_call listCallback newKind newKindList namespace name
    w items :
  Forall (fun e => is_backing_call e = false)
    (trace (respond listCallback newKind newKindList namespace name w items)).
Proof.
  unfold respond.
  repeat case_match; run_simpl; repeat (constructor; [reflexivity|]);
    constructor.
Qed.

(** ** Backing calls of a handler run *)

Lemma no_backing_not_in (t : list Effect) (e : Effect) :
  Forall (fun e => is_backing_call e = false) t ->
  is_backing_call e = true -> ~ In e t.
Proof.
  intros HF He Hin. rewrite Forall_forall in HF.
  apply list_elem_of_In, HF in Hin. congruence.
Qed.

Section Handler.
Variables (k8s : Apimachinery) (s : Server)
          (createNew : ResourceCreateNew)
          (createNewList : ResourceCreateNewList)
          (listCallback : option ResourceListCallback)
          (watchCallback : option ResourceWatchCallback)
          (namespace name : string) (w : ResponseWriter) (r : Request)
          (selects : list SelectOutcome).

Local Abbreviation run :=
  (handleResourceFunc k8s s createNew createNewList listCallback watchCallback
                      namespace name w r selects).

Ltac handler_cases :=
  unfold handleResourceFunc, handleWatch, handleGet, handleList;
  repeat case_match; run_simpl.

Ltac not_backing :=
  match goal with
  | H : In ?e (trace (watchLoop _ _ _ _ _ _ _ _)) |- _ =>
      exfalso;
      exact (no_backing_not_in _ e
               (watchLoop_no_backing_call _ _ _ _ _ _ _ _) eq_refl H)
  | H : In ?e (trace (respond _ _ _ _ _ _ _)) |- _ =>
      exfalso;
      exact (no_backing_not_in _ e
               (respond_no_backing_call _ _ _ _ _ _ _) eq_refl H)
  end.

(** A backing [List] is only issued without a name, with the options
    computed from the query. *)
Lemma KubeList_in_run opts :
  In (EKubeList opts) (trace run) ->
  name = "" /\ list_listOpts k8s (Query r) namespace = Ok opts.
Proof.
  handler_cases; intros Hin;
    repeat (destruct Hin as [Hin|Hin]; try discriminate Hin);
    try contradiction; try not_backing;
    inversion Hin; subst; split; auto;
    match goal with
    | H : negb (String.eqb name "") = false |- _ =>
        apply negb_false_iff, String.eqb_eq in H; exact H
    end.
Qed.

(** A backing watch is only opened with the options computed from the
    query and the name. *)
Lemma DynWatch_in_run gvr ns opts :
  In (EDynWatch gvr ns opts) (trace run) ->
  gvr = fst createNew /\ ns = namespace
  /\ opts = watch_listOpts (Query r) name
  /\ (woSendInitialEvents opts
      && negb (rvm_is_NotOlderThan (woResourceVersionMatch opts))) = false.
Proof.
  handler_cases; intros Hin;
    repeat (destruct Hin as [Hin|Hin]; try discriminate Hin);
    try contradiction; try not_backing;
    inversion Hin; subst; repeat split; auto.
Qed.

(** A backing [Get] is only issued for the key of the request. *)
Lemma KubeGet_in_run ns n :
  In (EKubeGet ns n) (trace run) -> ns = namespace /\ n = name.
Proof.
  handler_cases; intros Hin;
    repeat (destruct Hin as [Hin|Hin]; try discriminate Hin);
    try contradiction; try not_backing;
    inversion Hin; subst; split; reflexivity.
Qed.

End Handler.

(** ** The list limit *)

(** C4: a list request whose [limit] parameter is absent, does not parse
    as a number, is not positive or is above 1000 reaches the backing
    store with the default limit 500, and the parameter is ignored: the
    handler does exactly what it does for the same request without it. *)
Theorem list_limit_default_when_ignored
    (k8s : Apimachinery) (s : Server) (res : Resource)
    (namespace name : string) (w : ResponseWriter) (r : Request)
    (selects : list SelectOutcome) :
  limit_ignored (Go.Get (Query r) "limit") ->
  (forall opts,
      In (EKubeList opts)
         (trace (handleResourceFunc k8s s (CreateNew res) (CreateNewList res)
                   (ListCallback res) (WatchCallback res) namespace name w r
                   selects)) ->
      loLimit opts = 500)
  /\ handleResourceFunc k8s s (CreateNew res) (CreateNewList res)
       (ListCallback res) (WatchCallback res) namespace name w
       (without_param "limit" r) selects
     = handleResourceFunc k8s s (CreateNew res) (CreateNewList res)
         (ListCallback res) (WatchCallback res) namespace name w r selects.
Proof.
  intros Hig. apply effective_limit_ignored in Hig. split.
  - intros opts Hin. apply KubeList_in_run in Hin as [_ Hopts].
    apply list_listOpts_limit in Hopts. congruence.
  - unfold handleResourceFunc, handleWatch, handleList, without_param; simpl.
    rewrite watch_listOpts_without_limit, list_listOpts_without_limit by exact Hig.
    by rewrite !Get_delete_ne by discriminate.
Qed.

(** A request with a non-numeric limit does reach the store, with 500. *)
Lemma list_limit_default_when_ignored_witness :
  In (EKubeList (mkListOptions "" 500 "" None None ""
                               ResourceVersionMatchNotOlderThan))
     (trace (Example.serve Example.store Example.resource ""
               (Example.GET "/apis/example.com/v1/widgets" [("limit", "many")])
               []))
  /\ forall opts,
       In (EKubeList opts)
          (trace (Example.serve Example.store Example.resource ""
                    (Example.GET "/apis/example.com/v1/widgets"
                                 [("limit", "many")]) [])) ->
       loLimit opts = 500.
Proof.
  split.
  - vm_compute. left. reflexivity.
  - apply (list_limit_default_when_ignored Example.k8s Example.store
             Example.resource "" "" Example.writer
             (Example.GET "/apis/example.com/v1/widgets" [("limit", "many")])
             []).
    right; left. vm_compute. reflexivity.
Defined.

(** C3, as the code has it: [limit=5000] reaches the backing store as the
    default 500.  A value outside [1,1000] is replaced by the default, it
    is not clamped; so every limit the store sees lies in [1,1000]. *)
Theorem list_limit_5000_is_default
    (k8s : Apimachinery) (s : Server) (res : Resource)
    (namespace name : string) (w : ResponseWriter) (r : Request)
    (selects : list SelectOutcome) (opts : ListOptions) :
  In (EKubeList opts)
     (trace (handleResourceFunc k8s s (CreateNew res) (CreateNewList res)
               (ListCallback res) (WatchCallback res) namespace name w r
               selects)) ->
  1 <= loLimit opts <= 1000
  /\ (Go.Get (Query r) "limit" = "5000" -> loLimit opts = 500).
Proof.
  intros Hin. apply KubeList_in_run in Hin as [_ Hopts].
  apply list_listOpts_limit in Hopts. rewrite Hopts. split.
  - apply effective_limit_range.
  - intros ->. reflexivity.
Qed.

Lemma list_limit_5000_is_default_witness :
  let run :=
    Example.serve Example.store Example.resource ""
      (Example.GET "/apis/example.com/v1/widgets" [("limit", "5000")]) [] in
  exists opts, In (EKubeList opts) (trace run) /\ loLimit opts = 500.
Proof.
  intros run.
  assert (Hin : In (EKubeList (mkListOptions "" 500 "" None None ""
                                 ResourceVersionMatchNotOlderThan))
                   (trace run))
    by (vm_compute; left; reflexivity).
  eexists. split; [exact Hin|].
  apply (list_limit_5000_is_default Example.k8s Example.store
           Example.resource "" "" Example.writer
           (Example.GET "/apis/example.com/v1/widgets" [("limit", "5000")])
           [] _ Hin).
  vm_compute. reflexivity.
Defined.

(** C3 as stated fails: for [GET /apis/example.com/v1/widgets?limit=5000]
    the limit passed to the backing store is 500, not 1000. *)
Lemma list_limit_5000_not_clamped :
  exists opts,
    In (EKubeList opts)
       (trace (Example.serve Example.store Example.resource ""
                 (Example.GET "/apis/example.com/v1/widgets" [("limit", "5000")])
                 []))
    /\ loLimit opts = 500 /\ loLimit opts <> 1000.
Proof.
  eexists. split; [vm_compute; left; reflexivity|].
  split; [reflexivity | discriminate].
Qed.

(** ** Watch negotiation *)

(** C6: a watch request whose effective [sendInitialEvents] is true and
    whose [resourceVersionMatch] resolves to [Exact] never reaches the
    backing client; once the method, the kind lookups and the flusher
    check have passed, the answer is the 400 of the validation. *)
Theorem watch_sendInitial_exact_rejected
    (k8s : Apimachinery) (s : Server) (res : Resource)
    (namespace name : string) (w : ResponseWriter) (r : Request)
    (selects : list SelectOutcome) :
  Go.EqualFold (Go.Get (Query r) "watch") "true" = true ->
  effective_sendInitial (Go.Get (Query r) "resourceVersion")
                        (Go.Get (Query r) "sendInitialEvents") = true ->
  parse_rvm (Go.Get (Query r) "resourceVersionMatch")
    = ResourceVersionMatchExact ->
  let run := handleResourceFunc k8s s (CreateNew res) (CreateNewList res)
               (ListCallback res) (WatchCallback res) namespace name w r
               selects in
  Forall (fun e => is_backing_call e = false) (trace run)
  /\ (Method r = http.MethodGet ->
      (exists newKind, KindFor (KubeClient s) (fst (CreateNew res)) = Ok newKind) ->
      (exists newKindList,
          KindFor (KubeClient s) (fst (CreateNewList res)) = Ok newKindList) ->
      isFlusher w = true ->
      run = ret [ESetHeader "Content-Type"
                            "application/json;stream=watch; charset=utf-8";
                 EHttpError
                   "sendInitialEvents requires resourceVersionMatch=NotOlderThan"
                   http.StatusBadRequest]
      /\ response_status (trace run) = Some 400).
Proof.
  intros Hwatch Hsend Hrvm run. subst run.
  unfold handleResourceFunc, handleWatch.
  rewrite Hwatch. unfold watch_listOpts at 1 2; simpl.
  rewrite Hsend, Hrvm; simpl. split.
  - repeat case_match; run_simpl; repeat (constructor; [reflexivity|]);
      constructor.
  - intros Hm [k1 Hk1] [k2 Hk2] Hf.
    rewrite Hm, Hk1, Hk2, Hf; simpl. split; reflexivity.
Qed.

Lemma watch_sendInitial_exact_rejected_witness :
  response_status
    (trace (Example.serve Example.store Example.resource ""
              (Example.GET "/apis/example.com/v1/widgets"
                 [("watch", "true"); ("sendInitialEvents", "true");
                  ("resourceVersionMatch", "Exact")])
              [Recv Example.added]))
  = Some 400.
Proof.
  apply (watch_sendInitial_exact_rejected Example.k8s Example.store
           Example.resource "" "" Example.writer
           (Example.GET "/apis/example.com/v1/widgets"
              [("watch", "true"); ("sendInitialEvents", "true");
               ("resourceVersionMatch", "Exact")])
           [Recv Example.added]);
    try (vm_compute; reflexivity);
    eexists; vm_compute; reflexivity.
Defined.

(** C7: when the path carries a name, the field selector of every watch
    opened on the backing store is [metadata.name=<name>], whatever the
    [fieldSelector] query parameter says; and no backing list is issued
    under a name (the get branch reads the one object by its key). *)
Theorem named_request_field_selector
    (k8s : Apimachinery) (s : Server) (res : Resource)
    (namespace name : string) (w : ResponseWriter) (r : Request)
    (selects : list SelectOutcome) (e : Effect) :
  name <> "" ->
  In e (trace (handleResourceFunc k8s s (CreateNew res) (CreateNewList res)
                 (ListCallback res) (WatchCallback res) namespace name w r
                 selects)) ->
  match e with
  | EDynWatch _ _ opts => woFieldSelector opts = "metadata.name=" +:+ name
  | EKubeList _ => False
  | EKubeGet ns n => ns = namespace /\ n = name
  | _ => True
  end.
Proof.
  intros Hname Hin. destruct e; auto.
  - by apply KubeGet_in_run in Hin.
  - apply KubeList_in_run in Hin as [Hn _]. contradiction.
  - apply DynWatch_in_run in Hin as (_ & _ & -> & _).
    unfold watch_listOpts, watch_fieldSelector; simpl.
    apply String.eqb_neq in Hname. by rewrite Hname.
Qed.

Lemma named_request_field_selector_witness :
  exists gvr ns opts,
    In (EDynWatch gvr ns opts)
       (trace (Example.serve Example.store Example.resource "bar"
                 (Example.GET "/apis/example.com/v1/widgets/bar"
                    [("watch", "true"); ("fieldSelector", "spec.size=3")])
                 []))
    /\ woFieldSelector opts = "metadata.name=bar".
Proof.
  do 3 eexists.
  assert (Hin : In (EDynWatch Example.widgets ""
                      (watch_listOpts
                         (Example.query [("watch", "true");
                                         ("fieldSelector", "spec.size=3")])
                         "bar"))
                   (trace (Example.serve Example.store Example.resource "bar"
                             (Example.GET "/apis/example.com/v1/widgets/bar"
                                [("watch", "true");
                                 ("fieldSelector", "spec.size=3")])
                             [])))
    by (vm_compute; right; left; reflexivity).
  split; [exact Hin|].
  exact (named_request_field_selector Example.k8s Example.store
           Example.resource "" "bar" Example.writer _ [] _
           ltac:(discriminate) Hin).
Defined.

(** ** Errors of the get branch *)

(** What the get branch answers when the backing [Get] fails: 404 for a
    not-found error, 500 with the error text for every other error. *)
Lemma handleGet_error k8s kube createNew createNewList listCallback newKind
    newKindList namespace name w err :
  Get kube namespace name (snd createNew) = Err err ->
  handleGet k8s kube createNew createNewList listCallback newKind newKindList
            namespace name w
  = if apierrors.IsNotFound err
    then ret [EKubeGet namespace name; EHttpNotFound]
    else ret [EKubeGet namespace name;
              EHttpError ("failed to get task: " +:+ errText err)
                         http.StatusInternalServerError].
Proof.
  intros Hget. unfold handleGet, IgnoreNotFound. rewrite Hget.
  by destruct (apierrors.IsNotFound err).
Qed.

(** C2 at a stale resource version: the backing [Get] of
    [GET /apis/example.com/v1/widgets/bar] fails with a status error of
    code 410.  The handler answers 500, where the list branch answers 410
    to the same error; a not-found error is answered 404. *)
Theorem get_gone_answers_500 :
  apierrors.IsGoneStatus Example.gone = true
  /\ Example.serve (Example.server (Err Example.gone) (Err Example.gone) None)
       Example.resource "bar"
       (Example.GET "/apis/example.com/v1/widgets/bar" []) []
     = ret [EKubeGet "" "bar";
            EHttpError "failed to get task: too old resource version" 500]
  /\ response_status
       (trace (Example.serve
                 (Example.server (Err Example.gone) (Err Example.gone) None)
                 Example.resource ""
                 (Example.GET "/apis/example.com/v1/widgets" []) []))
     = Some 410
  /\ response_status
       (trace (Example.serve
                 (Example.server (Err Example.notFound) (Err Example.gone) None)
                 Example.resource "bar"
                 (Example.GET "/apis/example.com/v1/widgets/bar" []) []))
     = Some 404.
Proof. repeat split; vm_compute; reflexivity. Qed.

(** ** The watch stream *)

Section Stream.
Variables (watchCallback : option ResourceWatchCallback)
          (newKind : GroupVersionKind) (namespace name : string)
          (w : ResponseWriter).

Local Abbreviation loop :=
  (watchLoop watchCallback newKind namespace name w).

(** A bookmark is dropped without a trace when bookmarks are not allowed. *)
Lemma watchLoop_bookmark_discarded event n rest :
  watch.evType event = watch.Bookmark ->
  loop false n (Recv event :: rest) = loop false n rest.
Proof. intros Hb. simpl. rewrite Hb. reflexivity. Qed.

(** When bookmarks are allowed, a bookmark is written as one document,
    the backing event itself, and flushed. *)
Lemma watchLoop_bookmark_forwarded event n rest :
  watch.evType event = watch.Bookmark ->
  encodeErr w n (json_of_Event event) = None ->
  loop true n (Recv event :: rest)
  = prepend [EEncode (json_of_Event event); EFlush] (loop true (S n) rest).
Proof. intros Hb He. simpl. rewrite Hb, He. reflexivity. Qed.

(** Every document of the stream has the wire shape, except forwarded
    bookmarks. *)
Lemma watchLoop_documents allowBookmarks selects : forall n doc,
  In (EEncode doc) (trace (loop allowBookmarks n selects)) ->
  has_wire_shape doc = true
  \/ (allowBookmarks = true
      /\ exists event, In (Recv event) selects
                       /\ watch.evType event = watch.Bookmark
                       /\ doc = json_of_Event event).
Proof.
  induction selects as [|o rest IH]; intros n doc; simpl; [contradiction|].
  destruct o as [| |event]; run_simpl;
    [intros [Hd|[]]; discriminate Hd | contradiction |].
  repeat case_match; run_simpl; intros Hin;
    repeat (destruct Hin as [Hin|Hin]; try discriminate Hin);
    try contradiction;
    try (apply IH in Hin as [Hs|(Ha & ev & Hev & Hb & Hd)];
         [left; exact Hs
         |right; split; [exact Ha|]; exists ev; repeat split; auto]).
  all: try (left; inversion Hin; subst; reflexivity).
  right. split; [reflexivity|]. exists event. inversion Hin; subst.
  repeat split; auto. by apply String.eqb_eq.
Qed.

End Stream.

(** C1 on the paths that end a streaming session.  Cancellation stops the
    watcher, once; a backing [Error] event, an object that is not
    unstructured, a failing watch-transform hook and a failing encoder
    make the handler return without [watcher.Stop()]. *)
Theorem watch_error_paths_do_not_stop :
  let session w res selects :=
    Example.serveOn w Example.store res "" Example.watchWidgets selects in
  (stops (trace (session Example.writer Example.resource
                         [Recv Example.added; CtxDone])) = 1%nat)
  /\ Forall (fun run => outcome run = Returned /\ stops (trace run) = 0%nat)
       [ session Example.writer Example.resource
                 [Recv Example.added; Recv Example.expired];
         session Example.writer Example.resource [Recv Example.addedTyped];
         session Example.writer Example.failing [Recv Example.added];
         session Example.brokenWriter Example.resource [Recv Example.added] ]
  /\ response_status
       (trace (session Example.writer Example.resource [Recv Example.expired]))
     = Some 410.
Proof.
  repeat split; repeat constructor; vm_compute; reflexivity.
Qed.

(** C5 at a forwarded bookmark: with [allowWatchBookmarks=true] a
    [BOOKMARK] event is written as one flushed document, but with the keys
    [Type] and [Object] of the backing event, not [type] and [object];
    an [ADDED] event has the wire shape. *)
Theorem bookmark_document_keys :
  let session selects :=
    Example.serve Example.store Example.resource ""
      (Example.GET "/apis/example.com/v1/widgets"
         [("watch", "true"); ("allowWatchBookmarks", "true")])
      selects in
  let opened :=
    [ESetHeader "Content-Type" "application/json;stream=watch; charset=utf-8";
     EDynWatch Example.widgets ""
       (mkWatchListOptions "" ResourceVersionMatchNotOlderThan 60 true true
                           true "" "")] in
  let sent :=
    JObject [("Type", JString "BOOKMARK");
             ("Object", JValue (AnyRuntime
                 (Unstructured (mkObject Example.noKind "43" ""))))] in
  session [Recv Example.bookmark] = (opened ++ [EEncode sent; EFlush], Blocked)
  /\ has_wire_shape sent = false
  /\ session [Recv Example.added]
     = (opened ++ [EEncode (json_of_watchEvent
                              (mkWatchEvent "ADDED"
                                 (AnyRuntime (Unstructured
                                    (mkObject Example.Widget "41" "bar")))));
                   EFlush], Blocked)
  /\ has_wire_shape
       (json_of_watchEvent
          (mkWatchEvent "ADDED"
             (AnyRuntime (Unstructured (mkObject Example.Widget "41" "bar")))))
     = true.
Proof. repeat split; vm_compute; reflexivity. Qed.

(** ** Unwrapping the single object *)

(** Without a list-transform hook the one-item list of the get branch is
    unwrapped safely. *)
Lemma respond_without_hook_returns newKind newKindList namespace name w
    lk rv item :
  outcome (respond None newKind newKindList namespace name w
                   (mkObjectList lk rv [item])) = Returned.
Proof.
  unfold respond; simpl.
  destruct (String.eqb name ""); simpl; case_match; reflexivity.
Qed.

(** C9 at a hook that filters the item out: for
    [GET /apis/example.com/v1/widgets/bar] the hook returns an empty list,
    it is extractable, and the handler indexes element 0 of it: the run
    panics with an index out of range. *)
Theorem get_unwrap_empty_list_panics :
  ExtractList (ListObj (mkObjectList Example.WidgetList "41" [])) = Some []
  /\ Example.serve Example.store Example.filtered "bar"
       (Example.GET "/apis/example.com/v1/widgets/bar" []) []
     = ([EKubeGet "" "bar";
         ESetHeader "Content-Type" "application/json; charset=utf-8"],
        Panicked "runtime error: index out of range [0] with length 0").
Proof. split; vm_compute; reflexivity. Qed.

(** ** Building the route table *)

Lemma bind_Ok {E A B : Type} (m : result E A) (f : A -> result E B) (b : B) :
  bind m f = Ok b -> exists a, m = Ok a /\ f a = Ok b.
Proof. destruct m as [a|e]; simpl; [eauto | discriminate]. Qed.

Lemma HandleFunc_registered (m : ServeMux) pattern h :
  is_Some (m !! pattern) ->
  HandleFunc m pattern (Some h) = Err (MuxMultipleRegistrations pattern).
Proof. intros [h' Hh]. unfold HandleFunc. by rewrite Hh. Qed.

Lemma HandleFunc_Ok (m m' : ServeMux) pattern handler :
  HandleFunc m pattern handler = Ok m' ->
  exists h, handler = Some h /\ m !! pattern = None /\ m' = <[pattern := h]> m.
Proof.
  unfold HandleFunc. destruct handler as [h|]; [|discriminate].
  destruct (m !! pattern) eqn:Hm; [discriminate|].
  intros [= <-]. eauto.
Qed.

(** A successful registration keeps what was registered before. *)
Lemma HandleFunc_keeps (m m' : ServeMux) pattern handler p :
  HandleFunc m pattern handler = Ok m' ->
  is_Some (m !! p) -> is_Some (m' !! p).
Proof.
  intros (h & _ & Hnone & ->)%HandleFunc_Ok [x Hx].
  destruct (decide (pattern = p)) as [->|Hne]; [congruence|].
  rewrite lookup_insert_ne by done. eauto.
Qed.

Lemma HandleFunc_adds (m m' : ServeMux) pattern handler :
  HandleFunc m pattern handler = Ok m' -> is_Some (m' !! pattern).
Proof.
  intros (h & _ & _ & ->)%HandleFunc_Ok. rewrite lookup_insert_eq. eauto.
Qed.

Section Routes.
Variables (config : ServerConfig.t) (ak : APIKind).

Lemma registerResource_routes res st :
  registerResource config ak res st
  = registerRoutes config ak (resourceCollection res)
                   (resourceItem (itemPattern config ak) res)
                   (nsResource res) st.
Proof. by destruct st. Qed.

Lemma registerCustomResource_routes res st :
  registerCustomResource config ak res st
  = registerRoutes config ak (customCollection res)
                   (customItem (itemPattern config ak) res)
                   (nsCustomResource res) st.
Proof. by destruct st. Qed.

Lemma registerRoutes_registered coll item nsHandler st :
  is_Some (st.1 !! collectionPattern config ak) ->
  registerRoutes config ak coll item nsHandler st
  = Err (MuxMultipleRegistrations (collectionPattern config ak)).
Proof.
  intros Hreg. unfold registerRoutes.
  by rewrite HandleFunc_registered.
Qed.

Lemma registerRoutes_adds coll item nsHandler st st' :
  registerRoutes config ak coll item nsHandler st = Ok st' ->
  is_Some (st'.1 !! collectionPattern config ak).
Proof.
  unfold registerRoutes. intros (m1 & H1 & Hrest)%bind_Ok.
  apply HandleFunc_adds in H1.
  destruct (negb (Namespaced (ApiResource ak))).
  - apply bind_Ok in Hrest as (m2 & H2 & [= <-]). simpl.
    eapply HandleFunc_keeps; eauto.
  - by injection Hrest as <-.
Qed.

(** Once the collection route is registered, the next iteration of either
    loop panics. *)
Lemma forEach_registerResource_registered l st :
  is_Some (st.1 !! collectionPattern config ak) -> l <> [] ->
  forEach (registerResource config ak) l st
  = Err (MuxMultipleRegistrations (collectionPattern config ak)).
Proof.
  intros Hreg Hl. destruct l as [|res l]; [done|]. simpl.
  by rewrite registerResource_routes, registerRoutes_registered.
Qed.

Lemma forEach_registerCustomResource_registered l st :
  is_Some (st.1 !! collectionPattern config ak) -> l <> [] ->
  forEach (registerCustomResource config ak) l st
  = Err (MuxMultipleRegistrations (collectionPattern config ak)).
Proof.
  intros Hreg Hl. destruct l as [|res l]; [done|]. simpl.
  by rewrite registerCustomResource_routes, registerRoutes_registered.
Qed.

(** A loop that completes has run at most once, and if it ran the
    collection route is registered. *)
Lemma forEach_registerResource_Ok l st st' :
  forEach (registerResource config ak) l st = Ok st' ->
  (length l <= 1)%nat
  /\ (l <> [] -> is_Some (st'.1 !! collectionPattern config ak))
  /\ (is_Some (st.1 !! collectionPattern config ak) ->
      is_Some (st'.1 !! collectionPattern config ak)).
Proof.
  destruct l as [|res l]; simpl.
  - intros [= <-]. repeat split; [simpl; lia | done | auto].
  - intros (st1 & H1 & Hrest)%bind_Ok.
    rewrite registerResource_routes in H1.
    pose proof (registerRoutes_adds _ _ _ _ _ H1) as Hreg.
    destruct l as [|res' l].
    + injection Hrest as <-. repeat split; [simpl; lia | auto | auto].
    + by rewrite forEach_registerResource_registered in Hrest.
Qed.

Lemma forEach_registerCustomResource_Ok l st st' :
  forEach (registerCustomResource config ak) l st = Ok st' ->
  (length l <= 1)%nat
  /\ (is_Some (st.1 !! collectionPattern config ak) -> l = []).
Proof.
  destruct l as [|res l]; simpl.
  - intros _. split; [simpl; lia | done].
  - intros (st1 & H1 & Hrest)%bind_Ok.
    rewrite registerCustomResource_routes in H1.
    pose proof (registerRoutes_adds _ _ _ _ _ H1) as Hreg.
    destruct l as [|res' l].
    + split; [simpl; lia|]. intros Hst.
      by rewrite registerRoutes_registered in H1.
    + by rewrite forEach_registerCustomResource_registered in Hrest.
Qed.

(** An [APIKind] is registered without panic only if it registers its
    collection route at most once, and then its name was new. *)
Lemma registerAPIKind_Ok b b' :
  registerAPIKind config ak b = Ok b' ->
  (collection_registrations ak <= 1)%nat
  /\ (Name (ApiResource ak) ∉ existingApiResources b)
  /\ existingApiResources b'
     = {[ Name (ApiResource ak) ]} ∪ existingApiResources b.
Proof.
  unfold registerAPIKind, collection_registrations.
  case_bool_decide as Hdup; [discriminate|].
  intros (m1 & _ & (st2 & H2 & (st3 & H3 & [= <-])%bind_Ok)%bind_Ok)%bind_Ok.
  apply forEach_registerResource_Ok in H2 as (Hlen2 & Hreg2 & _).
  apply forEach_registerCustomResource_Ok in H3 as (Hlen3 & Hreg3).
  simpl. repeat split; auto.
  destruct (Resources ak) as [|res l]; [simpl; lia|].
  rewrite Hreg3 by (apply Hreg2; discriminate). simpl in *. lia.
Qed.

Lemma registerAPIKind_duplicate b :
  Name (ApiResource ak) ∈ existingApiResources b ->
  registerAPIKind config ak b
  = Err (PanicString ("APIResource must be unique: " +:+ Name (ApiResource ak))).
Proof.
  intros Hin. unfold registerAPIKind. by rewrite bool_decide_eq_true_2.
Qed.

End Routes.

Section Construction.
Variable config : ServerConfig.t.

Lemma initialMux_Ok : initialMux config = Ok (initialRoutes config).
Proof.
  unfold initialMux, initialRoutes, HandleFunc; simpl.
  rewrite lookup_empty; simpl.
  rewrite lookup_insert_ne by discriminate. rewrite lookup_empty; simpl.
  do 2 rewrite lookup_insert_ne by discriminate. by rewrite lookup_empty.
Qed.

Lemma registerAPIKinds_app pre post b :
  registerAPIKinds config (pre ++ post) b
  = bind (registerAPIKinds config pre b) (registerAPIKinds config post).
Proof.
  unfold registerAPIKinds. revert b.
  induction pre as [|ak pre IH]; intros b; simpl; [reflexivity|].
  destruct (registerAPIKind config ak b); simpl; auto.
Qed.

(** The loop completes only over kinds that register their collection
    route at most once and whose names are new and pairwise different;
    it records every name. *)
Lemma registerAPIKinds_Ok kinds : forall b b',
  registerAPIKinds config kinds b = Ok b' ->
  Forall (fun ak => (collection_registrations ak <= 1)%nat) kinds
  /\ NoDup (names kinds)
  /\ (forall n, n ∈ names kinds -> n ∉ existingApiResources b)
  /\ existingApiResources b'
     = list_to_set (names kinds) ∪ existingApiResources b.
Proof.
  unfold registerAPIKinds.
  induction kinds as [|ak kinds IH]; intros b b'; simpl.
  - intros [= <-]. repeat split; [constructor | constructor | |].
    + intros n Hn. by apply elem_of_nil in Hn.
    + symmetry. apply (left_id_L ∅ (∪)).
  - intros (b1 & H1 & Hrest)%bind_Ok.
    apply registerAPIKind_Ok in H1 as (Hone & Hnew & Hex1).
    apply IH in Hrest as (Hall & Hnd & Hfresh & Hex).
    repeat split.
    + by constructor.
    + apply NoDup_cons. split; [|exact Hnd].
      intros Hin. apply Hfresh in Hin. rewrite Hex1 in Hin.
      apply Hin, elem_of_union_l. by apply elem_of_singleton.
    + intros n [->|Hn]%elem_of_cons; [exact Hnew|].
      apply Hfresh in Hn. rewrite Hex1 in Hn.
      intros Hb. apply Hn, elem_of_union_r, Hb.
    + rewrite Hex, Hex1.
      rewrite (assoc_L (∪)), (comm_L (∪) (list_to_set (names kinds))).
      reflexivity.
Qed.

(** A name that the loop has already recorded aborts it, whatever
    follows. *)
Lemma registerAPIKinds_duplicate pre d post b :
  Name (ApiResource d) ∈ names pre ->
  registerAPIKinds config (pre ++ d :: post) b
  = match registerAPIKinds config pre b with
    | Ok _ => Err (PanicString ("APIResource must be unique: "
                                +:+ Name (ApiResource d)))
    | Err p => Err p
    end.
Proof.
  intros Hin. rewrite registerAPIKinds_app.
  destruct (registerAPIKinds config pre b) as [b1|p] eqn:Hpre; simpl;
    [|reflexivity].
  apply registerAPIKinds_Ok in Hpre as (_ & _ & _ & Hex).
  unfold registerAPIKinds; simpl.
  rewrite registerAPIKind_duplicate; [reflexivity|].
  rewrite Hex. apply elem_of_union_l, elem_of_list_to_set, Hin.
Qed.

(** [NewServer] in terms of the loop. *)
Lemma NewServer_Ok srv :
  NewServer config = Ok srv ->
  exists b, registerAPIKinds config (ServerConfig.APIKinds config)
                             (initialBuilding config) = Ok b.
Proof.
  unfold NewServer. rewrite initialMux_Ok; simpl.
  intros (b & Hb & _)%bind_Ok. eauto.
Qed.

Lemma NewServer_Err p :
  registerAPIKinds config (ServerConfig.APIKinds config)
                   (initialBuilding config) = Err p ->
  NewServer config = Err p.
Proof.
  intros Hp. unfold NewServer. rewrite initialMux_Ok; simpl.
  unfold initialBuilding in Hp. by rewrite Hp.
Qed.

End Construction.

(** The first descriptor that repeats an earlier name. *)
Lemma first_duplicate_split (kinds : list APIKind) :
  ~ NoDup (names kinds) ->
  exists pre d post,
    kinds = pre ++ d :: post
    /\ NoDup (names pre)
    /\ Name (ApiResource d) ∈ names pre.
Proof.
  induction kinds as [|ak kinds IH] using rev_ind.
  - intros H. destruct H. constructor.
  - intros Hdup. destruct (decide (NoDup (names kinds))) as [Hnd|Hnd].
    + exists kinds, ak, []. repeat split; auto.
      destruct (decide (Name (ApiResource ak) ∈ names kinds)) as [Hin|Hnin];
        [exact Hin|].
      destruct Hdup. unfold names. rewrite map_app. apply NoDup_app.
      repeat split; [exact Hnd | | apply NoDup_singleton].
      intros n Hn [->|[]%elem_of_nil]%elem_of_cons. by apply Hnin.
    + destruct (IH Hnd) as (pre & d & post & -> & Hpre & Hin).
      exists pre, d, (post ++ [ak]). by rewrite <- app_assoc.
Qed.

(** C8, as the code has it: a configuration in which two descriptors
    carry the same resource name never yields a server.  Construction
    panics with the message naming the first duplicate, unless
    registering the routes of the descriptors before it has already
    panicked. *)
Theorem NewServer_duplicate_name (config : ServerConfig.t) :
  ~ NoDup (names (ServerConfig.APIKinds config)) ->
  (forall srv, NewServer config <> Ok srv)
  /\ exists pre d post,
       ServerConfig.APIKinds config = pre ++ d :: post
       /\ NoDup (names pre)
       /\ Name (ApiResource d) ∈ names pre
       /\ NewServer config
          = match registerAPIKinds config pre (initialBuilding config) with
            | Ok _ => Err (PanicString ("APIResource must be unique: "
                                        +:+ Name (ApiResource d)))
            | Err p => Err p
            end.
Proof.
  intros Hdup. split.
  - intros srv (b & Hb)%NewServer_Ok.
    apply registerAPIKinds_Ok in Hb as (_ & Hnd & _). contradiction.
  - destruct (first_duplicate_split _ Hdup) as (pre & d & post & Hk & Hnd & Hin).
    exists pre, d, post. repeat split; auto.
    pose proof (registerAPIKinds_duplicate config pre d post
                  (initialBuilding config) Hin) as Hloop.
    rewrite <- Hk in Hloop.
    destruct (registerAPIKinds config pre (initialBuilding config)) as [b|p];
      by apply NewServer_Err.
Qed.

(** Two descriptors named [widgets]: no server, and the panic names
    [widgets]. *)
Lemma NewServer_duplicate_name_witness :
  let config :=
    Example.config [Example.kind "widgets" false [Example.resource] [];
                    Example.kind "gadgets" true [Example.resource] [];
                    Example.kind "widgets" false [] []] in
  (forall srv, NewServer config <> Ok srv)
  /\ NewServer config = Err (PanicString "APIResource must be unique: widgets").
Proof.
  split.
  - apply (NewServer_duplicate_name
             (Example.config
                [Example.kind "widgets" false [Example.resource] [];
                 Example.kind "gadgets" true [Example.resource] [];
                 Example.kind "widgets" false [] []])).
    apply (bool_decide_eq_false_1 (NoDup _)). vm_compute. reflexivity.
  - vm_compute. reflexivity.
Defined.

(** C8 as stated fails: here [gadgets] is duplicated, but the first
    descriptor has two [Resources]; construction panics on its collection
    route and the panic does not name [gadgets]. *)
Lemma NewServer_duplicate_name_not_reported :
  let config :=
    Example.config
      [Example.kind "widgets" false [Example.resource; Example.resource] [];
       Example.kind "gadgets" false [] [];
       Example.kind "gadgets" false [] []] in
  ~ NoDup (names (ServerConfig.APIKinds config))
  /\ NewServer config
     = Err (MuxMultipleRegistrations "/apis/example.com/v1/widgets")
  /\ NewServer config
     <> Err (PanicString "APIResource must be unique: gadgets").
Proof.
  intros config. split; [|split].
  - apply (bool_decide_eq_false_1 (NoDup _)). vm_compute. reflexivity.
  - vm_compute. reflexivity.
  - vm_compute. discriminate.
Qed.

(** C10: [NewServer] completes only if every [APIKind] registers its
    collection route at most once.  An [APIKind] with two [Resources], two
    [CustomResources], or one of each makes construction panic, unique
    names or not.  Every iteration of either loop registers the same
    collection pattern: once one iteration has gone through, any further
    iteration for that kind, of either loop, is refused by the multiplexer
    as a second registration of the collection route. *)
Theorem NewServer_one_registration_per_route (config : ServerConfig.t) :
  (forall srv,
      NewServer config = Ok srv ->
      Forall (fun ak => (collection_registrations ak <= 1)%nat)
             (ServerConfig.APIKinds config))
  /\ (Exists (fun ak => (2 <= collection_registrations ak)%nat)
             (ServerConfig.APIKinds config) ->
      exists p, NewServer config = Err p)
  /\ (forall ak st st1,
        (exists res, registerResource config ak res st = Ok st1)
        \/ (exists res, registerCustomResource config ak res st = Ok st1) ->
        (forall res,
            registerResource config ak res st1
            = Err (MuxMultipleRegistrations (collectionPattern config ak)))
        /\ (forall res,
              registerCustomResource config ak res st1
              = Err (MuxMultipleRegistrations (collectionPattern config ak)))).
Proof.
  assert (Hok : forall srv,
             NewServer config = Ok srv ->
             Forall (fun ak => (collection_registrations ak <= 1)%nat)
                    (ServerConfig.APIKinds config)).
  { intros srv (b & Hb)%NewServer_Ok.
    by apply registerAPIKinds_Ok in Hb as (Hall & _). }
  split; [exact Hok|]. split.
  - intros Hex. destruct (NewServer config) as [srv|p] eqn:Hnew; [|eauto].
    exfalso. specialize (Hok srv eq_refl).
    apply Exists_exists in Hex as (ak & Hin & Htwo).
    rewrite Forall_forall in Hok. specialize (Hok ak Hin). lia.
  - intros ak st st1 Hfirst.
    assert (Hreg : is_Some (st1.1 !! collectionPattern config ak)).
    { destruct Hfirst as [[res H1]|[res H1]].
      - rewrite registerResource_routes in H1.
        by eapply registerRoutes_adds.
      - rewrite registerCustomResource_routes in H1.
        by eapply registerRoutes_adds. }
    split; intros res.
    + by rewrite registerResource_routes, registerRoutes_registered.
    + by rewrite registerCustomResource_routes, registerRoutes_registered.
Qed.

(** One [Resource] and one [CustomResource] under the unique name
    [widgets]: the collection route is registered twice. *)
Lemma NewServer_one_registration_per_route_witness :
  NoDup (names [Example.kind "widgets" true [Example.resource]
                             [mkCustomResource None None None None None None]])
  /\ NewServer
       (Example.config
          [Example.kind "widgets" true [Example.resource]
                        [mkCustomResource None None None None None None]])
     = Err (MuxMultipleRegistrations "/apis/example.com/v1/widgets").
Proof.
  split.
  - apply NoDup_singleton.
  - destruct (proj1 (proj2 (NewServer_one_registration_per_route
                (Example.config
                   [Example.kind "widgets" true [Example.resource]
                      [mkCustomResource None None None None None None]]))))
      as [p Hp].
    + left. vm_compute. lia.
    + rewrite Hp. revert Hp. vm_compute. by intros [= <-].
Defined.

(** ** A built server at work *)

(** A namespaced and a cluster-scoped resource: the namespaced one is
    reached through the shared [/namespaces/] handler, which resolves
    namespace and name from the path and reads the object by that key. *)
Lemma namespaced_route_resolves :
  let config :=
    Example.config [Example.kind "widgets" true [Example.resource] [];
                    Example.kind "gadgets" false [Example.resource] []] in
  exists srv h,
    NewServer config = Ok srv
    /\ mux srv !! "/apis/example.com/v1/namespaces/" = Some h
    /\ trace (serveHandler Example.k8s srv h Example.writer
                (Example.GET "/apis/example.com/v1/namespaces/ns1/widgets/x" [])
                [])
       = [EKubeGet "ns1" "x";
          ESetHeader "Content-Type" "application/json; charset=utf-8";
          EEncode (JDoc (JValue (AnyRuntime
                     (Typed (mkObject Example.Widget "41" "bar")))))].
Proof.
  intros config. eexists _, _.
  split; [vm_compute; reflexivity|].
  split; vm_compute; reflexivity.
Qed.

(** * Further properties of the handler *)

Ltac handler_branches :=
  unfold handleResourceFunc, handleWatch, handleGet, handleList;
  repeat case_match; run_simpl.

Lemma error_ends_split t o t1 msg code t2 :
  error_ends t o = true -> t = t1 ++ EHttpError msg code :: t2 ->
  t2 = [] /\ o = Returned.
Proof.
  intros He ->. induction t1 as [|e t1 IH]; simpl in He.
  - destruct t2, o; try discriminate He; auto.
  - destruct e; auto.
    destruct t1; discriminate He.
Qed.

Lemma error_ends_prepend pre r :
  Forall (fun e => match e with EHttpError _ _ => False | _ => True end) pre ->
  error_ends (trace r) (outcome r) = true ->
  error_ends (trace (prepend pre r)) (outcome (prepend pre r)) = true.
Proof.
  rewrite trace_prepend, outcome_prepend. intros Hpre Hr.
  induction Hpre as [|e pre He _ IH]; simpl; [exact Hr|].
  destruct e; auto; contradiction.
Qed.

Lemma watchLoop_error_ends watchCallback newKind namespace name w
    allowBookmarks selects : forall n,
  let run := watchLoop watchCallback newKind namespace name w allowBookmarks
                       n selects in
  error_ends (trace run) (outcome run) = true.
Proof.
  induction selects as [|o rest IH]; intros n; simpl; [reflexivity|].
  destruct o as [| |event]; simpl; try reflexivity.
  repeat case_match; try reflexivity; auto;
    apply error_ends_prepend; auto; repeat constructor.
Qed.

Lemma respond_error_ends listCallback newKind newKindList namespace name w
    items :
  let run := respond listCallback newKind newKindList namespace name w items in
  error_ends (trace run) (outcome run) = true.
Proof. unfold respond. repeat case_match; reflexivity. Qed.

Lemma respond_not_blocked listCallback newKind newKindList namespace name w
    items :
  outcome (respond listCallback newKind newKindList namespace name w items)
  <> Blocked.
Proof. unfold respond. repeat case_match; discriminate. Qed.

Lemma filter_no_backing_call (t : list Effect) :
  Forall (fun e => is_backing_call e = false) t ->
  List.filter is_backing_call t = [].
Proof.
  induction 1 as [|e t He _ IH]; simpl; [reflexivity|]. by rewrite He.
Qed.

Section HandlerRuns.
Variables (k8s : Apimachinery) (s : Server) (res : Resource)
          (namespace name : string) (w : ResponseWriter).

Local Abbreviation run r selects :=
  (handleResourceFunc k8s s (CreateNew res) (CreateNewList res)
     (ListCallback res) (WatchCallback res) namespace name w r selects).

Lemma handler_error_ends r selects :
  error_ends (trace (run r selects)) (outcome (run r selects)) = true.
Proof.
  unfold handleResourceFunc, handleWatch, handleGet, handleList.
  repeat case_match; try reflexivity;
    apply error_ends_prepend; try (repeat constructor);
    first [apply watchLoop_error_ends | apply respond_error_ends].
Qed.

Lemma handler_backing_calls r selects :
  (backing_calls (trace (run r selects)) <= 1)%nat.
Proof.
  unfold backing_calls.
  unfold handleResourceFunc, handleWatch, handleGet, handleList.
  repeat case_match; run_simpl; try lia;
    rewrite filter_no_backing_call;
    first [simpl; lia | apply watchLoop_no_backing_call
          | apply respond_no_backing_call].
Qed.

End HandlerRuns.

(** X1: the handler stops at its first [http.Error]: an error that was
    written is the last effect of a run, and the run has returned.  (The
    one [http.Error] that can panic, on the status code of an [ERROR]
    event, panics before it writes and so leaves no error in the run.) *)
Theorem handler_stops_at_first_error
    (k8s : Apimachinery) (s : Server) (res : Resource)
    (namespace name : string) (w : ResponseWriter) (r : Request)
    (selects : list SelectOutcome)
    (before : list Effect) (msg : string) (code : Z) (after : list Effect) :
  trace (handleResourceFunc k8s s (CreateNew res) (CreateNewList res)
           (ListCallback res) (WatchCallback res) namespace name w r selects)
  = before ++ EHttpError msg code :: after ->
  after = []
  /\ outcome (handleResourceFunc k8s s (CreateNew res) (CreateNewList res)
                (ListCallback res) (WatchCallback res) namespace name w r
                selects) = Returned.
Proof.
  intros Ht. eapply error_ends_split; [|exact Ht].
  apply handler_error_ends.
Qed.

Lemma handler_stops_at_first_error_witness :
  outcome (Example.serve Example.store Example.resource ""
             Example.watchWidgets [Recv Example.added; Recv Example.expired;
                                   Recv Example.added])
  = Returned.
Proof.
  eapply (handler_stops_at_first_error Example.k8s Example.store
            Example.resource "" "" Example.writer Example.watchWidgets
            [Recv Example.added; Recv Example.expired; Recv Example.added]
            (removelast
               (trace (Example.serve Example.store Example.resource ""
                         Example.watchWidgets
                         [Recv Example.added; Recv Example.expired;
                          Recv Example.added])))
            "watch error: too old resource version" 410 []).
  vm_compute. reflexivity.
Defined.

(** X2: one run of the handler calls the backing client at most once. *)
Theorem handler_at_most_one_backing_call
    (k8s : Apimachinery) (s : Server) (res : Resource)
    (namespace name : string) (w : ResponseWriter) (r : Request)
    (selects : list SelectOutcome) :
  (backing_calls
     (trace (handleResourceFunc k8s s (CreateNew res) (CreateNewList res)
               (ListCallback res) (WatchCallback res) namespace name w r
               selects)) <= 1)%nat.
Proof. apply handler_backing_calls. Qed.

Lemma respond_stops listCallback newKind newKindList namespace name w items :
  stops (trace (respond listCallback newKind newKindList namespace name w
                        items)) = 0%nat.
Proof. unfold respond. repeat case_match; reflexivity. Qed.

Lemma respond_plain listCallback newKind newKindList namespace name w items :
  Forall (fun e => match e with
                   | EDynWatch _ _ _ | EFlush | EWatcherStop => False
                   | _ => True
                   end)
         (trace (respond listCallback newKind newKindList namespace name w
                         items))
  /\ (documents (trace (respond listCallback newKind newKindList namespace
                                name w items)) <= 1)%nat.
Proof.
  unfold respond, documents.
  repeat case_match; run_simpl; split; try lia; repeat constructor.
Qed.

(** X3: a request without [watch=true] never enters the watch branch: the
    handler is never left waiting in the [select], opens no backing watch,
    stops no watcher, flushes nothing, and writes at most one document. *)
Theorem non_watch_request_returns
    (k8s : Apimachinery) (s : Server) (res : Resource)
    (namespace name : string) (w : ResponseWriter) (r : Request)
    (selects : list SelectOutcome) :
  Go.EqualFold (Go.Get (Query r) "watch") "true" = false ->
  let run :=
    handleResourceFunc k8s s (CreateNew res) (CreateNewList res)
      (ListCallback res) (WatchCallback res) namespace name w r selects in
  outcome run <> Blocked
  /\ stops (trace run) = 0%nat
  /\ (forall gvr ns opts, ~ In (EDynWatch gvr ns opts) (trace run))
  /\ ~ In EFlush (trace run)
  /\ (documents (trace run) <= 1)%nat.
Proof.
  intros Hnw run. subst run.
  unfold handleResourceFunc, handleGet, handleList. rewrite Hnw.
  split; [|split; [|split; [|split]]].
  - repeat case_match; rewrite ?outcome_prepend; try discriminate;
      apply respond_not_blocked.
  - repeat case_match; run_simpl; try reflexivity;
      unfold stops; simpl; apply respond_stops.
  - intros gvr ns opts.
    repeat case_match; run_simpl; intros Hin;
      repeat (destruct Hin as [Hin|Hin]; try discriminate Hin);
      try contradiction;
      match goal with
      | Hin : In _ (trace (respond ?cb ?k ?kl ?n ?m ?w ?l)) |- _ =>
          destruct (respond_plain cb k kl n m w l) as [Hplain _];
          rewrite List.Forall_forall in Hplain; exact (Hplain _ Hin)
      end.
  - repeat case_match; run_simpl; intros Hin;
      repeat (destruct Hin as [Hin|Hin]; try discriminate Hin);
      try contradiction;
      match goal with
      | Hin : In _ (trace (respond ?cb ?k ?kl ?n ?m ?w ?l)) |- _ =>
          destruct (respond_plain cb k kl n m w l) as [Hplain _];
          rewrite List.Forall_forall in Hplain; exact (Hplain _ Hin)
      end.
  - unfold documents.
    repeat case_match; run_simpl; try lia;
      match goal with
      | |- context [trace (respond ?cb ?k ?kl ?n ?m ?w ?l)] =>
          destruct (respond_plain cb k kl n m w l) as [_ Hdocs];
          exact Hdocs
      end.
Qed.

Lemma non_watch_request_returns_witness :
  let run := Example.serve Example.store Example.resource ""
               (Example.GET "/apis/example.com/v1/widgets" [("watch", "yes")])
               [CtxDone] in
  outcome run <> Blocked /\ stops (trace run) = 0%nat.
Proof.
  intros run.
  destruct (non_watch_request_returns Example.k8s Example.store
              Example.resource "" "" Example.writer
              (Example.GET "/apis/example.com/v1/widgets" [("watch", "yes")])
              [CtxDone]) as (Hb & Hs & _).
  - vm_compute. reflexivity.
  - split; [exact Hb | exact Hs].
Defined.

(** X5: a named request without [watch=true] is answered from the path
    alone: [limit], [continue], the selectors and the resource version of
    the query play no part. *)
Theorem get_ignores_query
    (k8s : Apimachinery) (s : Server) (res : Resource)
    (namespace name : string) (w : ResponseWriter) (r : Request)
    (q : Go.Values) (selects : list SelectOutcome) :
  name <> "" ->
  Go.EqualFold (Go.Get (Query r) "watch") "true" = false ->
  Go.EqualFold (Go.Get q "watch") "true" = false ->
  handleResourceFunc k8s s (CreateNew res) (CreateNewList res)
    (ListCallback res) (WatchCallback res) namespace name w (with_query q r)
    selects
  = handleResourceFunc k8s s (CreateNew res) (CreateNewList res)
      (ListCallback res) (WatchCallback res) namespace name w r selects.
Proof.
  intros Hname Hr Hq. unfold handleResourceFunc, with_query; simpl.
  rewrite Hr, Hq. apply String.eqb_neq in Hname. by rewrite Hname.
Qed.

Lemma get_ignores_query_witness :
  Example.serve Example.store Example.resource "bar"
    (Example.GET "/apis/example.com/v1/widgets/bar"
       [("limit", "1"); ("labelSelector", "app=web");
        ("fieldSelector", "metadata.name=baz"); ("resourceVersion", "7")])
    []
  = Example.serve Example.store Example.resource "bar"
      (Example.GET "/apis/example.com/v1/widgets/bar" []) [].
Proof.
  apply (get_ignores_query Example.k8s Example.store Example.resource ""
           "bar" Example.writer
           (Example.GET "/apis/example.com/v1/widgets/bar" [])
           (Example.query [("limit", "1"); ("labelSelector", "app=web");
                           ("fieldSelector", "metadata.name=baz");
                           ("resourceVersion", "7")]) []);
    [discriminate | vm_compute; reflexivity | vm_compute; reflexivity].
Defined.

(** ** Errors of the backing client on the list and watch branches *)

(** X6: when the backing [List] that a run issues fails, the run is that
    call followed by one error: 410 with the bare error text for a status
    error of code 410, otherwise 500 with the text prefixed; the hook is
    not run and nothing is encoded. *)
Theorem list_error_response
    (k8s : Apimachinery) (s : Server) (res : Resource)
    (namespace name : string) (w : ResponseWriter) (r : Request)
    (selects : list SelectOutcome) (opts : ListOptions) (err : BackingError) :
  In (EKubeList opts)
     (trace (handleResourceFunc k8s s (CreateNew res) (CreateNewList res)
               (ListCallback res) (WatchCallback res) namespace name w r
               selects)) ->
  List (KubeClient s) (snd (CreateNewList res)) opts = Err err ->
  handleResourceFunc k8s s (CreateNew res) (CreateNewList res)
    (ListCallback res) (WatchCallback res) namespace name w r selects
  = ret [EKubeList opts;
         if apierrors.IsGoneStatus err
         then EHttpError (errText err) http.StatusGone
         else EHttpError ("failed to list tasks: " +:+ errText err)
                         http.StatusInternalServerError].
Proof.
  intros Hin Herr.
  pose proof (KubeList_in_run _ _ _ _ _ _ _ _ _ _ _ _ Hin) as [Hname Hopts].
  revert Hin.
  unfold handleResourceFunc, handleWatch, handleGet, handleList.
  rewrite Hopts, Herr.
  repeat case_match; run_simpl; intros Hin;
    repeat (destruct Hin as [Hin|Hin]; try discriminate Hin);
    try contradiction; try reflexivity;
    exfalso;
    first [ exact (no_backing_not_in _ (EKubeList opts)
                     (watchLoop_no_backing_call _ _ _ _ _ _ _ _) eq_refl Hin)
          | exact (no_backing_not_in _ (EKubeList opts)
                     (respond_no_backing_call _ _ _ _ _ _ _) eq_refl Hin) ].
Qed.

Lemma list_error_response_witness :
  response_status
    (trace (Example.serve
              (Example.server (Ok Example.bar) (Err Example.gone) None)
              Example.resource ""
              (Example.GET "/apis/example.com/v1/widgets" [("limit", "10")])
              []))
  = Some 410.
Proof.
  unfold Example.serve, Example.serveOn.
  rewrite (list_error_response Example.k8s
             (Example.server (Ok Example.bar) (Err Example.gone) None)
             Example.resource "" "" Example.writer
             (Example.GET "/apis/example.com/v1/widgets" [("limit", "10")]) []
             (mkListOptions "" 10 "" None None ""
                            ResourceVersionMatchNotOlderThan)
             Example.gone).
  - reflexivity.
  - vm_compute. left. reflexivity.
  - reflexivity.
Defined.

(** X7: when the backing watch that a run opens fails, the run ends with
    one error and the loop is never entered: 410 with the bare error text
    for a status error of code 410, otherwise 500. *)
Theorem watch_open_error_response
    (k8s : Apimachinery) (s : Server) (res : Resource)
    (namespace name : string) (w : ResponseWriter) (r : Request)
    (selects : list SelectOutcome) (gvr : GroupVersionResource) (ns : string)
    (opts : WatchListOptions) (err : BackingError) :
  In (EDynWatch gvr ns opts)
     (trace (handleResourceFunc k8s s (CreateNew res) (CreateNewList res)
               (ListCallback res) (WatchCallback res) namespace name w r
               selects)) ->
  Watch (DynamicKubeCluient s) gvr ns opts = Some err ->
  handleResourceFunc k8s s (CreateNew res) (CreateNewList res)
    (ListCallback res) (WatchCallback res) namespace name w r selects
  = ret [ESetHeader "Content-Type"
                    "application/json;stream=watch; charset=utf-8";
         EDynWatch gvr ns opts;
         if apierrors.IsGoneStatus err
         then EHttpError (errText err) http.StatusGone
         else EHttpError ("failed to initialize watcher: " +:+ errText err)
                         http.StatusInternalServerError].
Proof.
  intros Hin Herr.
  pose proof (DynWatch_in_run _ _ _ _ _ _ _ _ _ _ _ _ _ _ Hin)
    as (-> & -> & -> & Hvalid).
  revert Hin.
  unfold handleResourceFunc, handleWatch, handleGet, handleList.
  rewrite Herr, Hvalid.
  repeat case_match; run_simpl; intros Hin;
    repeat (destruct Hin as [Hin|Hin]; try discriminate Hin);
    try contradiction; try reflexivity;
    exfalso;
    exact (no_backing_not_in _ (EDynWatch _ _ _)
             (respond_no_backing_call _ _ _ _ _ _ _) eq_refl Hin).
Qed.

Lemma watch_open_error_response_witness :
  Example.serve (Example.server (Ok Example.bar) (Err Example.gone)
                                (Some Example.gone))
    Example.resource "" Example.watchWidgets [Recv Example.added]
  = ret [ESetHeader "Content-Type"
                    "application/json;stream=watch; charset=utf-8";
         EDynWatch Example.widgets ""
           (mkWatchListOptions "" ResourceVersionMatchNotOlderThan 60 true
                               true false "" "");
         EHttpError "too old resource version" 410].
Proof.
  apply (watch_open_error_response Example.k8s
           (Example.server (Ok Example.bar) (Err Example.gone)
                           (Some Example.gone))
           Example.resource "" "" Example.writer Example.watchWidgets
           [Recv Example.added] Example.widgets ""
           (mkWatchListOptions "" ResourceVersionMatchNotOlderThan 60 true
                               true false "" "")
           Example.gone).
  - vm_compute. right; left. reflexivity.
  - reflexivity.
Defined.

(** ** Hooks *)

Lemma respond_empty_list listCallback newKind newKindList namespace name w
    items :
  Items items = [] ->
  respond listCallback newKind newKindList namespace name w items
  = respond None newKind newKindList namespace name w items.
Proof. intros Hempty. unfold respond; simpl. by rewrite Hempty. Qed.

(** X8: an empty list never reaches the list-transform hook.  Against a
    backing store whose lists come back empty, a resource with a hook is
    served exactly like the same resource without one. *)
Theorem empty_list_skips_hook
    (k8s : Apimachinery) (s : Server) (createNew : ResourceCreateNew)
    (createNewList : ResourceCreateNewList) (cb : ResourceListCallback)
    (watchCallback : option ResourceWatchCallback) (namespace : string)
    (w : ResponseWriter) (r : Request) (selects : list SelectOutcome) :
  (forall opts l,
      List (KubeClient s) (snd createNewList) opts = Ok l -> Items l = []) ->
  handleResourceFunc k8s s createNew createNewList (Some cb) watchCallback
                     namespace "" w r selects
  = handleResourceFunc k8s s createNew createNewList None watchCallback
                       namespace "" w r selects.
Proof.
  intros Hempty. unfold handleResourceFunc, handleList; simpl.
  repeat case_match; try reflexivity.
  f_equal. apply respond_empty_list. eauto.
Qed.

Lemma empty_list_skips_hook_witness :
  let empty := Example.server (Ok Example.bar)
                 (Ok (mkObjectList Example.noKind "40" [])) None in
  Example.serve empty Example.filtered ""
    (Example.GET "/apis/example.com/v1/widgets" []) []
  = Example.serve empty Example.resource ""
      (Example.GET "/apis/example.com/v1/widgets" []) [].
Proof.
  intros empty.
  apply (empty_list_skips_hook Example.k8s empty
           (CreateNew Example.resource) (CreateNewList Example.resource)
           Example.dropAll None "" Example.writer
           (Example.GET "/apis/example.com/v1/widgets" []) []).
  intros opts l [= <-]. reflexivity.
Defined.

Lemma watchLoop_identity_hook newKind namespace name w allowBookmarks selects :
  forall n,
    watchLoop (Some identityWatchCallback) newKind namespace name w
              allowBookmarks n selects
    = watchLoop None newKind namespace name w allowBookmarks n selects.
Proof.
  induction selects as [|o rest IH]; intros n; simpl; [reflexivity|].
  destruct o as [| |event]; try reflexivity.
  repeat case_match; try reflexivity; auto; by rewrite IH.
Qed.

Lemma respond_identity_hook newKind newKindList namespace name w items :
  respond (Some identityListCallback) newKind newKindList namespace name w
          items
  = respond None newKind newKindList namespace name w items.
Proof. reflexivity. Qed.

(** X9: hooks that hand back what they are given change nothing: with the
    identity as list-transform and watch-transform hook every request is
    served exactly as without hooks (on the get branch the one-item list
    is unwrapped to the same object). *)
Theorem identity_hooks_are_no_hooks
    (k8s : Apimachinery) (s : Server) (createNew : ResourceCreateNew)
    (createNewList : ResourceCreateNewList) (namespace name : string)
    (w : ResponseWriter) (r : Request) (selects : list SelectOutcome) :
  handleResourceFunc k8s s createNew createNewList
    (Some identityListCallback) (Some identityWatchCallback)
    namespace name w r selects
  = handleResourceFunc k8s s createNew createNewList None None
      namespace name w r selects.
Proof.
  unfold handleResourceFunc, handleWatch, handleGet, handleList.
  repeat case_match; try reflexivity;
    by rewrite ?watchLoop_identity_hook, ?respond_identity_hook.
Qed.



(** ** Query validation *)

Lemma ParseInt_int64 s v :
  Go.ParseInt s = Some v -> Go.minInt64 <= v <= Go.maxInt64.
Proof.
  unfold Go.ParseInt. intros H.
  repeat case_match; try discriminate; simplify_eq;
    match goal with
    | Hr : (_ <=? _) && (_ <=? _) = true |- _ =>
        apply andb_true_iff in Hr as [?%Z.leb_le ?%Z.leb_le]; lia
    end.
Qed.

Lemma effective_timeout_positive raw :
  0 < effective_timeout raw <= Go.maxInt64.
Proof.
  unfold effective_timeout.
  destruct (String.eqb raw ""); [by vm_compute|].
  destruct (Go.ParseInt raw) as [v|] eqn:Hp; [|by vm_compute].
  apply ParseInt_int64 in Hp.
  destruct (0 <? v) eqn:Hv; [|by vm_compute].
  apply Z.ltb_lt in Hv. lia.
Qed.

(** X11: on the list branch a label selector that does not parse, or
    (the label selector being absent) a field selector that does not
    parse, is answered 400 with the parser's diagnostic, and the backing
    store is not called. *)
Theorem malformed_selector_is_400
    (k8s : Apimachinery) (s : Server) (res : Resource)
    (namespace : string) (w : ResponseWriter) (r : Request)
    (selects : list SelectOutcome) (diagnostic msg : string) :
  Go.EqualFold (Go.Get (Query r) "watch") "true" = false ->
  (Go.Get (Query r) "labelSelector" <> ""
   /\ labels_Parse k8s (Go.Get (Query r) "labelSelector") = Err diagnostic
   /\ msg = "failed to parse labelSelector: " +:+ diagnostic)
  \/ (Go.Get (Query r) "labelSelector" = ""
      /\ Go.Get (Query r) "fieldSelector" <> ""
      /\ fields_ParseSelector k8s (Go.Get (Query r) "fieldSelector")
         = Err diagnostic
      /\ msg = "failed to parse fieldSelector: " +:+ diagnostic) ->
  let run := handleResourceFunc k8s s (CreateNew res) (CreateNewList res)
               (ListCallback res) (WatchCallback res) namespace "" w r
               selects in
  backing_calls (trace run) = 0%nat
  /\ (Method r = http.MethodGet ->
      (exists newKind, KindFor (KubeClient s) (fst (CreateNew res)) = Ok newKind) ->
      (exists newKindList,
          KindFor (KubeClient s) (fst (CreateNewList res)) = Ok newKindList) ->
      run = ret [EHttpError msg http.StatusBadRequest]).
Proof.
  intros Hnw Hsel run.
  assert (Hopts : list_listOpts k8s (Query r) namespace = Err msg).
  { unfold list_listOpts.
    destruct Hsel as [(Hls & Hp & ->) | (Hls & Hfs & Hp & ->)].
    - apply String.eqb_neq in Hls. by rewrite Hls, Hp.
    - apply String.eqb_neq in Hfs. rewrite Hls; simpl. by rewrite Hfs, Hp. }
  subst run. unfold handleResourceFunc, handleList; simpl.
  rewrite Hnw, Hopts. split.
  - repeat case_match; reflexivity.
  - intros Hm [k1 Hk1] [k2 Hk2]. by rewrite Hm, Hk1, Hk2.
Qed.

Lemma malformed_selector_is_400_witness :
  handleResourceFunc
    (mkApimachinery (fun _ => Err "unexpected token") (fun sel => Ok sel)
                    (fun _ _ => true))
    Example.store (CreateNew Example.resource) (CreateNewList Example.resource)
    None None "" "" Example.writer
    (Example.GET "/apis/example.com/v1/widgets" [("labelSelector", "app in")])
    []
  = ret [EHttpError "failed to parse labelSelector: unexpected token" 400].
Proof.
  apply (malformed_selector_is_400
           (mkApimachinery (fun _ => Err "unexpected token") (fun sel => Ok sel)
                    (fun _ _ => true))
           Example.store Example.resource "" Example.writer
           (Example.GET "/apis/example.com/v1/widgets"
                        [("labelSelector", "app in")])
           [] "unexpected token").
  - vm_compute. reflexivity.
  - left. split; [vm_compute; discriminate|]. split; reflexivity.
  - reflexivity.
  - eexists. reflexivity.
  - eexists. reflexivity.
Defined.

(** X12: every watch the handler opens is a watch ([Watch = true]) in the
    namespace of the request, with a timeout between 1 second and the
    int64 maximum: the number of the query when it is a positive int64,
    and 60 when [timeoutSeconds] is absent, does not parse, or is zero or
    negative; with the label selector of the query passed on as it is (it
    is not parsed), and with [SendInitialEvents] only together with
    [NotOlderThan]. *)
Theorem opened_watch_options
    (k8s : Apimachinery) (s : Server) (res : Resource)
    (namespace name : string) (w : ResponseWriter) (r : Request)
    (selects : list SelectOutcome) (gvr : GroupVersionResource) (ns : string)
    (opts : WatchListOptions) :
  In (EDynWatch gvr ns opts)
     (trace (handleResourceFunc k8s s (CreateNew res) (CreateNewList res)
               (ListCallback res) (WatchCallback res) namespace name w r
               selects)) ->
  gvr = fst (CreateNew res) /\ ns = namespace
  /\ woWatch opts = true
  /\ 0 < woTimeoutSeconds opts <= Go.maxInt64
  /\ (forall v, Go.ParseInt (Go.Get (Query r) "timeoutSeconds") = Some v ->
                0 < v -> woTimeoutSeconds opts = v)
  /\ (Go.Get (Query r) "timeoutSeconds" = ""
      \/ Go.ParseInt (Go.Get (Query r) "timeoutSeconds") = None
      \/ (exists v, Go.ParseInt (Go.Get (Query r) "timeoutSeconds") = Some v
                    /\ v <= 0) ->
      woTimeoutSeconds opts = 60)
  /\ woLabelSelector opts = Go.Get (Query r) "labelSelector"
  /\ woResourceVersion opts = Go.Get (Query r) "resourceVersion"
  /\ (woSendInitialEvents opts = true ->
      woResourceVersionMatch opts = ResourceVersionMatchNotOlderThan).
Proof.
  intros Hin.
  apply DynWatch_in_run in Hin as (-> & -> & -> & Hvalid).
  repeat split; simpl.
  - apply effective_timeout_positive.
  - apply effective_timeout_positive.
  - intros v Hp Hv. unfold effective_timeout. rewrite Hp.
    apply Z.ltb_lt in Hv. rewrite Hv.
    destruct (String.eqb_spec (Go.Get (Query r) "timeoutSeconds") "")
      as [He|_]; [|reflexivity].
    rewrite He in Hp. discriminate Hp.
  - intros Hno. unfold effective_timeout.
    destruct Hno as [He | [Hp | (v & Hp & Hv)]].
    + by rewrite He.
    + rewrite Hp. by destruct (String.eqb _ "").
    + rewrite Hp. apply Z.ltb_ge in Hv. rewrite Hv.
      by destruct (String.eqb _ "").
  - intros Hsend. simpl in Hvalid. rewrite Hsend in Hvalid. simpl in Hvalid.
    destruct (parse_rvm (Go.Get (Query r) "resourceVersionMatch"));
      [reflexivity | discriminate].
Qed.

Lemma opened_watch_options_witness :
  let r := Example.GET "/apis/example.com/v1/widgets"
             [("watch", "true"); ("timeoutSeconds", "-5");
              ("labelSelector", "app in")] in
  let opts := mkWatchListOptions "" ResourceVersionMatchNotOlderThan 60 true
                                 true false "app in" "" in
  In (EDynWatch Example.widgets "" opts)
     (trace (Example.serve Example.store Example.resource "" r []))
  /\ (forall opened,
        In (EDynWatch Example.widgets "" opened)
           (trace (Example.serve Example.store Example.resource "" r [])) ->
        woTimeoutSeconds opened = 60)
  /\ woLabelSelector opts = Go.Get (Query r) "labelSelector".
Proof.
  intros r opts.
  assert (Hin : In (EDynWatch Example.widgets "" opts)
                   (trace (Example.serve Example.store Example.resource ""
                             r [])))
    by (vm_compute; right; left; reflexivity).
  split; [exact Hin|]. split.
  - intros opened Hopened.
    destruct (opened_watch_options Example.k8s Example.store Example.resource
                "" "" Example.writer r [] Example.widgets "" opened Hopened)
      as (_ & _ & _ & _ & _ & Hsixty & _).
    apply Hsixty. right. right. exists (-5). split; [reflexivity | lia].
  - destruct (opened_watch_options Example.k8s Example.store Example.resource
                "" "" Example.writer r [] Example.widgets "" opts Hin)
      as (_ & _ & _ & _ & _ & _ & Hl & _).
    exact Hl.
Defined.

(** * Further properties of the watch stream *)

Section StreamComposition.
Variables (watchCallback : option ResourceWatchCallback)
          (newKind : GroupVersionKind) (namespace name : string)
          (w : ResponseWriter) (allowBookmarks : bool).

Local Abbreviation loop :=
  (watchLoop watchCallback newKind namespace name w allowBookmarks).

Lemma watchLoop_dropped selects : forall n,
  loop n (List.filter (fun o => negb (dropped allowBookmarks o)) selects)
  = loop n selects.
Proof.
  induction selects as [|o rest IH]; intros n; [reflexivity|].
  destruct o as [| |event]; try reflexivity.
  cbn [List.filter dropped].
  destruct (String.eqb (watch.evType event) watch.Error) eqn:Herr;
    [simpl; by rewrite Herr|].
  destruct (String.eqb (watch.evType event) watch.Bookmark) eqn:Hbm;
    [destruct allowBookmarks eqn:Hallow
    |destruct (watch.evObject event) as [obj|] eqn:Hobj];
    simpl; rewrite ?Herr, ?Hbm, ?Hobj; simpl;
    repeat case_match; rewrite ?IH; reflexivity.
Qed.

(** A loop that has ended does not read further outcomes; a loop that is
    still blocked goes on where it stands. *)
Lemma watchLoop_app s1 s2 : forall n,
  loop n (s1 ++ s2)
  = match outcome (loop n s1) with
    | Blocked =>
        prepend (trace (loop n s1))
                (loop (n + documents (trace (loop n s1))) s2)
    | _ => loop n s1
    end.
Proof.
  assert (Hstep : forall n doc rest,
             (forall n, loop n (rest ++ s2)
                        = match outcome (loop n rest) with
                          | Blocked =>
                              prepend (trace (loop n rest))
                                (loop (n + documents (trace (loop n rest))) s2)
                          | _ => loop n rest
                          end) ->
             prepend [EEncode doc; EFlush] (loop (S n) (rest ++ s2))
             = match outcome (prepend [EEncode doc; EFlush] (loop (S n) rest)) with
               | Blocked =>
                   prepend (trace (prepend [EEncode doc; EFlush]
                                           (loop (S n) rest)))
                     (loop (n + documents
                                  (trace (prepend [EEncode doc; EFlush]
                                                  (loop (S n) rest)))) s2)
               | _ => prepend [EEncode doc; EFlush] (loop (S n) rest)
               end).
  { intros n doc rest IH. rewrite IH, outcome_prepend, trace_prepend.
    destruct (outcome (loop (S n) rest)); try reflexivity.
    unfold prepend, documents; simpl. by rewrite Nat.add_succ_r. }
  induction s1 as [|o rest IH]; intros n.
  - simpl. unfold documents; simpl. rewrite Nat.add_0_r.
    by destruct (loop n s2).
  - destruct o as [| |event]; try reflexivity.
    simpl.
    destruct (String.eqb (watch.evType event) watch.Error);
      [destruct (watch.evObject event) as [[]|]; try reflexivity;
       by destruct ((n =? 0)%nat && negb (validWriteHeaderCode _))|].
    destruct (String.eqb (watch.evType event) watch.Bookmark).
    + destruct allowBookmarks; [|apply IH].
      destruct (encodeErr w n (json_of_Event event)); [reflexivity|].
      by apply Hstep.
    + destruct (watch.evObject event) as [obj|]; [|apply IH].
      destruct (SetRuntimeGroupVersionKind newKind obj); try reflexivity.
      destruct (match watchCallback with
                | Some cb => cb namespace name o
                | None => Ok (AnyRuntime (Unstructured o))
                end); [|reflexivity].
      destruct (encodeErr w n _); [reflexivity|].
      by apply Hstep.
Qed.

Lemma watchLoop_documents_bound selects : forall n,
  (documents (trace (loop n selects)) <= length selects)%nat.
Proof.
  induction selects as [|o rest IH]; intros n; simpl; [unfold documents; simpl; lia|].
  destruct o as [| |event]; try (unfold documents; simpl; lia).
  repeat case_match; rewrite ?trace_prepend;
    try (unfold documents; simpl; lia);
    try (specialize (IH n); lia);
    specialize (IH (S n)); unfold documents in *; simpl; lia.
Qed.

End StreamComposition.

(** ** The status code of an [ERROR] event *)

(** A run that is left waiting is a watch that was opened: whatever the
    channel yields next, the run starts with the header and the backing
    watch and goes on with the loop. *)
Lemma blocked_run_is_watch
    (k8s : Apimachinery) (s : Server) (res : Resource)
    (namespace name : string) (w : ResponseWriter) (r : Request)
    (pre : list SelectOutcome) :
  outcome (handleResourceFunc k8s s (CreateNew res) (CreateNewList res)
             (ListCallback res) (WatchCallback res) namespace name w r pre)
  = Blocked ->
  exists newKind,
    forall selects,
      handleResourceFunc k8s s (CreateNew res) (CreateNewList res)
        (ListCallback res) (WatchCallback res) namespace name w r selects
      = prepend [ESetHeader "Content-Type"
                            "application/json;stream=watch; charset=utf-8";
                 EDynWatch (fst (CreateNew res)) namespace
                           (watch_listOpts (Query r) name)]
          (watchLoop (WatchCallback res) newKind namespace name w
             (woAllowWatchBookmarks (watch_listOpts (Query r) name)) 0
             selects).
Proof.
  unfold handleResourceFunc, handleWatch, handleGet, handleList.
  repeat case_match; rewrite ?outcome_prepend, ?outcome_ret;
    try discriminate;
    try (intros Hb; by apply respond_not_blocked in Hb).
  intros _. eexists. intros selects. reflexivity.
Qed.

Lemma watchLoop_error_event watchCallback newKind namespace name w
    allowBookmarks n pre rest code message :
  let loop := watchLoop watchCallback newKind namespace name w allowBookmarks in
  outcome (loop n pre) = Blocked ->
  loop n (pre ++ Recv (watch.mkEvent watch.Error
                         (Some (StatusObj code message))) :: rest)
  = if ((n + documents (trace (loop n pre)))%nat =? 0)%nat
       && negb (validWriteHeaderCode code)
    then (trace (loop n pre),
          Panicked ("invalid WriteHeader code " +:+ pretty code))
    else (trace (loop n pre)
            ++ [EHttpError ("watch error: " +:+ message) code], Returned).
Proof.
  intros loop Hb. subst loop. rewrite watchLoop_app, Hb.
  cbn [watchLoop watch.evType watch.evObject].
  change (String.eqb watch.Error watch.Error) with true. cbv iota.
  destruct ((_ =? 0)%nat && negb (validWriteHeaderCode code));
    unfold prepend, ret; simpl; by rewrite ?app_nil_r.
Qed.

(** X4: the status code of an [ERROR] event goes to [http.Error]
    unchecked.  When such an event reaches a handler that is waiting and
    has sent no document yet, a code outside 100..999 makes the handler
    panic in [WriteHeader]: nothing is written and the watcher is not
    stopped.  In every other case the run ends with [http.Error] carrying
    the event's message and that code. *)
Theorem watch_error_code_unchecked
    (k8s : Apimachinery) (s : Server) (res : Resource)
    (namespace name : string) (w : ResponseWriter) (r : Request)
    (pre rest : list SelectOutcome) (code : Z) (message : string) :
  let run selects :=
    handleResourceFunc k8s s (CreateNew res) (CreateNewList res)
      (ListCallback res) (WatchCallback res) namespace name w r selects in
  outcome (run pre) = Blocked ->
  run (pre ++ Recv (watch.mkEvent watch.Error
                      (Some (StatusObj code message))) :: rest)
  = if (documents (trace (run pre)) =? 0)%nat
       && negb (validWriteHeaderCode code)
    then (trace (run pre),
          Panicked ("invalid WriteHeader code " +:+ pretty code))
    else (trace (run pre)
            ++ [EHttpError ("watch error: " +:+ message) code], Returned).
Proof.
  intros run Hb. subst run. cbv beta in *.
  destruct (blocked_run_is_watch _ _ _ _ _ _ _ _ Hb) as [newKind Hrun].
  rewrite !Hrun in *. rewrite outcome_prepend in Hb.
  rewrite (watchLoop_error_event _ _ _ _ _ _ _ _ rest code message Hb).
  rewrite trace_prepend.
  change (documents (?a :: ?b :: ?t)) with (documents t).
  destruct ((_ =? 0)%nat && negb (validWriteHeaderCode code));
    unfold prepend; simpl; reflexivity.
Qed.

Lemma watch_error_code_unchecked_witness :
  Example.serve Example.store Example.resource "" Example.watchWidgets
    [Recv (watch.mkEvent watch.Error (Some (StatusObj 0 "boom")))]
  = ([ESetHeader "Content-Type"
                 "application/json;stream=watch; charset=utf-8";
      EDynWatch Example.widgets ""
        (mkWatchListOptions "" ResourceVersionMatchNotOlderThan 60 true true
                            false "" "")],
     Panicked "invalid WriteHeader code 0")
  /\ Example.serve Example.store Example.resource "" Example.watchWidgets
       [Recv Example.added;
        Recv (watch.mkEvent watch.Error (Some (StatusObj 0 "boom")))]
     = ret (trace (Example.serve Example.store Example.resource ""
                     Example.watchWidgets [Recv Example.added])
              ++ [EHttpError "watch error: boom" 0]).
Proof.
  split.
  - etransitivity.
    + exact (watch_error_code_unchecked Example.k8s Example.store
               Example.resource "" "" Example.writer Example.watchWidgets
               [] [] 0 "boom" eq_refl).
    + vm_compute. reflexivity.
  - etransitivity.
    + exact (watch_error_code_unchecked Example.k8s Example.store
               Example.resource "" "" Example.writer Example.watchWidgets
               [Recv Example.added] [] 0 "boom" eq_refl).
    + vm_compute. reflexivity.
Defined.

(** X13: events the watch loop drops leave no trace.  A run is the same
    as the run in which the dropped events (bookmarks when
    [allowWatchBookmarks] is not true, events without an object) were
    never delivered. *)
Theorem dropped_events_leave_no_trace
    (k8s : Apimachinery) (s : Server) (res : Resource)
    (namespace name : string) (w : ResponseWriter) (r : Request)
    (selects : list SelectOutcome) :
  let allowBookmarks :=
    Go.EqualFold (Go.Get (Query r) "allowWatchBookmarks") "true" in
  handleResourceFunc k8s s (CreateNew res) (CreateNewList res)
    (ListCallback res) (WatchCallback res) namespace name w r
    (List.filter (fun o => negb (dropped allowBookmarks o)) selects)
  = handleResourceFunc k8s s (CreateNew res) (CreateNewList res)
      (ListCallback res) (WatchCallback res) namespace name w r selects.
Proof.
  intros allowBookmarks. unfold handleResourceFunc, handleWatch.
  repeat case_match; try reflexivity.
  f_equal. apply watchLoop_dropped.
Qed.

(** X14: the stream is written incrementally.  What a run has written
    after some outcomes is a prefix of what it writes after more of them,
    and once the handler has returned further outcomes change nothing. *)
Theorem watch_stream_extends
    (k8s : Apimachinery) (s : Server) (res : Resource)
    (namespace name : string) (w : ResponseWriter) (r : Request)
    (s1 s2 : list SelectOutcome) :
  let run sel :=
    handleResourceFunc k8s s (CreateNew res) (CreateNewList res)
      (ListCallback res) (WatchCallback res) namespace name w r sel in
  (exists more, trace (run (s1 ++ s2)) = trace (run s1) ++ more)
  /\ (outcome (run s1) <> Blocked -> run (s1 ++ s2) = run s1).
Proof.
  intros run. subst run.
  unfold handleResourceFunc, handleWatch, handleGet, handleList.
  repeat case_match;
    try (split; [exists []; by rewrite app_nil_r | reflexivity]).
  rewrite watchLoop_app, !outcome_prepend, !trace_prepend.
  destruct (outcome (watchLoop _ _ _ _ _ _ _ s1)) eqn:Ho.
  - split; [exists []; by rewrite app_nil_r | reflexivity].
  - split; [|done]. eexists. rewrite trace_prepend, <- app_assoc. reflexivity.
  - split; [exists []; by rewrite app_nil_r | reflexivity].
Qed.

Lemma watch_stream_extends_witness :
  Example.serve Example.store Example.resource "" Example.watchWidgets
    ([Recv Example.added; ChanClosed] ++ [Recv Example.added; CtxDone])
  = Example.serve Example.store Example.resource "" Example.watchWidgets
      [Recv Example.added; ChanClosed].
Proof.
  apply (proj2 (watch_stream_extends Example.k8s Example.store
                  Example.resource "" "" Example.writer Example.watchWidgets
                  [Recv Example.added; ChanClosed]
                  [Recv Example.added; CtxDone])).
  vm_compute. discriminate.
Defined.

(** X15: change events are forwarded one by one and in order.  With a
    writer that does not fail and a watch-transform hook that succeeds
    (or no hook), a sequence of events that are neither errors nor
    bookmarks is written as one document per event, of the event's type
    and with the hook applied to the object stamped with the kind, each
    followed by a flush; the handler then waits for more. *)
Theorem watch_forwards_changes_in_order
    (watchCallback : option ResourceWatchCallback) (newKind : GroupVersionKind)
    (namespace name : string) (w : ResponseWriter) (allowBookmarks : bool)
    (f : Object -> Any) (events : list (string * Object)) (n : nat) :
  (forall k doc, encodeErr w k doc = None) ->
  (forall u, match watchCallback with
             | Some cb => cb namespace name u
             | None => Ok (AnyRuntime (Unstructured u))
             end = Ok (f u)) ->
  Forall (fun e => fst e <> watch.Error /\ fst e <> watch.Bookmark) events ->
  watchLoop watchCallback newKind namespace name w allowBookmarks n
            (map change events)
  = (flat_map
       (fun e => [EEncode (json_of_watchEvent
                             (mkWatchEvent (fst e)
                                (f (SetGroupVersionKind newKind (snd e)))));
                  EFlush])
       events,
     Blocked).
Proof.
  intros Henc Hcb Hev. revert n.
  induction Hev as [|[ty u] events [Herr Hbm] _ IH]; intros n;
    [reflexivity|].
  simpl in *. apply String.eqb_neq in Herr, Hbm.
  rewrite Herr, Hbm, Hcb, Henc, IH. reflexivity.
Qed.

Lemma watch_forwards_changes_in_order_witness :
  watchLoop None Example.Widget "" "" Example.writer false 0
            (map change [("ADDED", Example.bar); ("MODIFIED", Example.bar);
                         ("DELETED", Example.baz)])
  = ([EEncode (json_of_watchEvent
                 (mkWatchEvent "ADDED"
                    (AnyRuntime (Unstructured
                       (mkObject Example.Widget "41" "bar")))));
      EFlush;
      EEncode (json_of_watchEvent
                 (mkWatchEvent "MODIFIED"
                    (AnyRuntime (Unstructured
                       (mkObject Example.Widget "41" "bar")))));
      EFlush;
      EEncode (json_of_watchEvent
                 (mkWatchEvent "DELETED"
                    (AnyRuntime (Unstructured
                       (mkObject Example.Widget "42" "baz")))));
      EFlush],
     Blocked).
Proof.
  apply (watch_forwards_changes_in_order None Example.Widget "" ""
           Example.writer false
           (fun u => AnyRuntime (Unstructured u))
           [("ADDED", Example.bar); ("MODIFIED", Example.bar);
            ("DELETED", Example.baz)] 0).
  - reflexivity.
  - reflexivity.
  - repeat constructor; discriminate.
Defined.

(** X16: a watch request never writes more documents than it has received
    outcomes from its [select]: no event is written twice. *)
Theorem watch_documents_bounded
    (k8s : Apimachinery) (s : Server) (res : Resource)
    (namespace name : string) (w : ResponseWriter) (r : Request)
    (selects : list SelectOutcome) :
  Go.EqualFold (Go.Get (Query r) "watch") "true" = true ->
  (documents
     (trace (handleResourceFunc k8s s (CreateNew res) (CreateNewList res)
               (ListCallback res) (WatchCallback res) namespace name w r
               selects)) <= length selects)%nat.
Proof.
  intros Hw. unfold handleResourceFunc, handleWatch. rewrite Hw.
  repeat case_match; rewrite ?trace_prepend, ?trace_ret;
    try (unfold documents; simpl; lia).
  unfold documents; simpl. apply watchLoop_documents_bound.
Qed.

Lemma watch_documents_bounded_witness :
  (documents
     (trace (Example.serve Example.store Example.resource ""
               Example.watchWidgets
               [Recv Example.bookmark; Recv Example.added; CtxDone]))
   <= 3)%nat.
Proof.
  apply (watch_documents_bounded Example.k8s Example.store Example.resource
           "" "" Example.writer Example.watchWidgets
           [Recv Example.bookmark; Recv Example.added; CtxDone]).
  vm_compute. reflexivity.
Defined.

(** * Further properties of the route table *)

Lemma HandleFunc_subseteq (m m' : ServeMux) pattern handler :
  HandleFunc m pattern handler = Ok m' -> m ⊆ m'.
Proof.
  intros (h & _ & Hnone & ->)%HandleFunc_Ok. by apply insert_subseteq.
Qed.

Lemma HandleFunc_lookup (m m' : ServeMux) pattern h :
  HandleFunc m pattern (Some h) = Ok m' -> m' !! pattern = Some h.
Proof.
  intros (h' & [= <-] & _ & ->)%HandleFunc_Ok. apply lookup_insert_eq.
Qed.

Lemma append_empty_r (p : string) : p +:+ "" = p.
Proof.
  induction p as [|c p IH]; [reflexivity|].
  change (String c (p +:+ "") = String c p). by f_equal.
Qed.

Lemma append_nonempty_neq (p q : string) : q <> "" -> p +:+ q <> p.
Proof.
  intros Hq. induction p as [|c p IH]; simpl; [exact Hq|].
  intros [= Hp]. by apply IH.
Qed.

Section RouteTable.
Variable config : ServerConfig.t.

Lemma registerRawEndpoints_subseteq ak eps : forall m m',
  registerRawEndpoints config ak eps m = Ok m' -> m ⊆ m'.
Proof.
  induction eps as [|[ep fn] eps IH]; intros m m'; simpl.
  - by intros [= <-].
  - intros (m1 & H1 & Hrest)%bind_Ok.
    etrans; [by eapply HandleFunc_subseteq | by eapply IH].
Qed.

Lemma registerRawEndpoints_adds ak eps ep : forall m m',
  registerRawEndpoints config ak eps m = Ok m' ->
  In ep (map fst eps) ->
  is_Some (m' !! (collectionPattern config ak +:+ ep)).
Proof.
  induction eps as [|[ep' fn] eps IH]; intros m m'; simpl; [done|].
  intros (m1 & H1 & Hrest)%bind_Ok [->|Hin].
  - apply HandleFunc_adds in H1 as [h Hh].
    exists h. eapply lookup_weaken; [exact Hh|].
    by eapply registerRawEndpoints_subseteq.
  - by eapply IH.
Qed.

Lemma registerRoutes_subseteq ak coll item nsHandler st st' :
  registerRoutes config ak coll item nsHandler st = Ok st' -> st.1 ⊆ st'.1.
Proof.
  unfold registerRoutes. intros (m1 & H1 & Hrest)%bind_Ok.
  apply HandleFunc_subseteq in H1.
  destruct (negb (Namespaced (ApiResource ak))).
  - apply bind_Ok in Hrest as (m2 & H2%HandleFunc_subseteq & [= <-]).
    simpl. by etrans.
  - by injection Hrest as <-.
Qed.

(** What one iteration of a registration loop leaves in the tables. *)
Lemma registerRoutes_lookup ak coll item nsHandler st st' :
  registerRoutes config ak coll item nsHandler st = Ok st' ->
  st'.1 !! collectionPattern config ak = Some coll
  /\ (if Namespaced (ApiResource ak)
      then st'.2 !! Name (ApiResource ak) = Some nsHandler
      else st'.1 !! itemPattern config ak = Some item /\ st'.2 = st.2).
Proof.
  unfold registerRoutes. intros (m1 & H1 & Hrest)%bind_Ok.
  pose proof (HandleFunc_lookup _ _ _ _ H1) as Hc.
  destruct (Namespaced (ApiResource ak)); cbn [negb] in Hrest.
  - injection Hrest as <-. simpl. split; [exact Hc|]. apply lookup_insert_eq.
  - apply bind_Ok in Hrest as (m2 & H2 & [= <-]). simpl.
    split; [|split; [by eapply HandleFunc_lookup | reflexivity]].
    eapply lookup_weaken; [exact Hc | by eapply HandleFunc_subseteq].
Qed.

(** The namespaced handlers of other resources are left alone. *)
Lemma registerRoutes_namespaced_other ak coll item nsHandler st st' key :
  registerRoutes config ak coll item nsHandler st = Ok st' ->
  key <> Name (ApiResource ak) ->
  st'.2 !! key = st.2 !! key.
Proof.
  unfold registerRoutes. intros (m1 & H1 & Hrest)%bind_Ok Hkey.
  destruct (negb (Namespaced (ApiResource ak))).
  - by apply bind_Ok in Hrest as (m2 & H2 & [= <-]).
  - injection Hrest as <-. simpl. by rewrite lookup_insert_ne.
Qed.

(** What registering one kind leaves in the tables: the mux only grows,
    the kind is appended to the discovery list, namespaced handlers of
    other names are kept, and the routes of a single binding are there. *)
Lemma registerAPIKind_tables ak b b' :
  registerAPIKind config ak b = Ok b' ->
  bMux b ⊆ bMux b'
  /\ apiResources b' = apiResources b ++ [ApiResource ak]
  /\ (forall key, key <> Name (ApiResource ak) ->
        resourceHandlersNamespaced b' !! key
        = resourceHandlersNamespaced b !! key)
  /\ (forall coll item nsHandler,
        (exists res, Resources ak = [res]
                     /\ coll = resourceCollection res
                     /\ item = resourceItem (itemPattern config ak) res
                     /\ nsHandler = nsResource res)
        \/ (exists res, CustomResources ak = [res]
                        /\ coll = customCollection res
                        /\ item = customItem (itemPattern config ak) res
                        /\ nsHandler = nsCustomResource res) ->
        bMux b' !! collectionPattern config ak = Some coll
        /\ (if Namespaced (ApiResource ak)
            then resourceHandlersNamespaced b' !! Name (ApiResource ak)
                 = Some nsHandler
            else bMux b' !! itemPattern config ak = Some item)).
Proof.
  intros Hreg.
  pose proof (registerAPIKind_Ok _ _ _ _ Hreg) as (Hone & _ & _).
  revert Hreg. unfold registerAPIKind, collection_registrations in *.
  case_bool_decide; [discriminate|].
  intros (m1 & Hraw & (st2 & H2 & (st3 & H3 & [= <-])%bind_Ok)%bind_Ok)%bind_Ok.
  apply registerRawEndpoints_subseteq in Hraw. simpl.
  destruct (Resources ak) as [|r1 [|r2 rs]] eqn:Hrs;
    destruct (CustomResources ak) as [|c1 [|c2 cs]] eqn:Hcs;
    simpl in Hone; try lia; cbn [forEach] in H2, H3.
  - injection H2 as <-. injection H3 as <-. simpl.
    split; [exact Hraw|]. split; [reflexivity|]. split; [reflexivity|].
    intros coll item nsHandler [(res & [=] & _)|(res & [=] & _)].
  - injection H2 as <-.
    apply bind_Ok in H3 as (st & H3 & [= <-]).
    rewrite registerCustomResource_routes in H3.
    split; [|split; [reflexivity|split]].
    + etrans; [exact Hraw|]. by apply registerRoutes_subseteq in H3.
    + intros key Hkey.
      by rewrite (registerRoutes_namespaced_other _ _ _ _ _ _ _ H3 Hkey).
    + intros coll item nsHandler
        [(res & [=] & _)|(res & [= <-] & -> & -> & ->)].
      apply registerRoutes_lookup in H3 as [Hc Hn].
      split; [exact Hc|].
      destruct (Namespaced (ApiResource ak)); [exact Hn | apply Hn].
  - apply bind_Ok in H2 as (st & H2 & [= <-]). injection H3 as <-.
    rewrite registerResource_routes in H2.
    split; [|split; [reflexivity|split]].
    + etrans; [exact Hraw|]. by apply registerRoutes_subseteq in H2.
    + intros key Hkey.
      by rewrite (registerRoutes_namespaced_other _ _ _ _ _ _ _ H2 Hkey).
    + intros coll item nsHandler
        [(res & [= <-] & -> & -> & ->)|(res & [=] & _)].
      apply registerRoutes_lookup in H2 as [Hc Hn].
      split; [exact Hc|].
      destruct (Namespaced (ApiResource ak)); [exact Hn | apply Hn].
Qed.

(** The loop over the kinds, seen from one of them. *)
Lemma registerAPIKinds_split pre ak post b b' :
  registerAPIKinds config (pre ++ ak :: post) b = Ok b' ->
  exists b1 b2,
    registerAPIKinds config pre b = Ok b1
    /\ registerAPIKind config ak b1 = Ok b2
    /\ registerAPIKinds config post b2 = Ok b'.
Proof.
  rewrite registerAPIKinds_app.
  intros (b1 & Hpre & Hrest)%bind_Ok.
  unfold registerAPIKinds in Hrest; simpl in Hrest.
  apply bind_Ok in Hrest as (b2 & Hak & Hpost). eauto.
Qed.

Lemma registerAPIKinds_tables kinds : forall b b',
  registerAPIKinds config kinds b = Ok b' ->
  bMux b ⊆ bMux b'
  /\ apiResources b' = apiResources b ++ map ApiResource kinds
  /\ (forall key, key ∉ names kinds ->
        resourceHandlersNamespaced b' !! key
        = resourceHandlersNamespaced b !! key).
Proof.
  unfold registerAPIKinds.
  induction kinds as [|ak kinds IH]; intros b b'; simpl.
  - intros [= <-]. by rewrite app_nil_r.
  - intros (b1 & H1 & Hrest)%bind_Ok.
    apply registerAPIKind_tables in H1 as (Hm1 & Ha1 & Hn1 & _).
    apply IH in Hrest as (Hm & Ha & Hn).
    split; [|split].
    + by etrans.
    + rewrite Ha, Ha1, <- app_assoc. reflexivity.
    + intros key Hkey. apply not_elem_of_cons in Hkey as [Hne Hkey].
      rewrite Hn by exact Hkey. by apply Hn1.
Qed.

End RouteTable.

Section BuiltServer.
Variables (config : ServerConfig.t) (srv : Server).
Hypothesis Hbuilt : NewServer config = Ok srv.

(** The server that [NewServer] returns, in terms of the state of the
    loop when it ends. *)
Lemma NewServer_built :
  exists b,
    registerAPIKinds config (ServerConfig.APIKinds config)
                     (initialBuilding config) = Ok b
    /\ bMux b ⊆ mux srv
    /\ mux srv !! groupVersionPath config
       = Some (discovery (ServerConfig.Group config +:+ "/"
                            +:+ ServerConfig.Version config)
                         (apiResources b))
    /\ (resourceHandlersNamespaced b <> ∅ ->
        mux srv !! namespacesPattern config
        = Some (namespaces (namespacesPattern config)
                           (resourceHandlersNamespaced b)))
    /\ KubeClient srv = ServerConfig.KubeClient config
    /\ DynamicKubeCluient srv = ServerConfig.DynamicKubeClient config
    /\ port srv = ServerConfig.Port config
    /\ certFile srv = ServerConfig.CertFile config
    /\ keyFile srv = ServerConfig.KeyFile config.
Proof.
  revert Hbuilt. unfold NewServer. rewrite initialMux_Ok; cbn [bind].
  intros (b & Hb & (m1 & H1 & (m2 & H2 & [= <-])%bind_Ok)%bind_Ok)%bind_Ok.
  exists b. cbn [mux KubeClient DynamicKubeCluient port certFile keyFile].
  split; [exact Hb|].
  pose proof (HandleFunc_subseteq _ _ _ _ H1) as Hsub1.
  pose proof (HandleFunc_lookup _ _ _ _ H1) as Hdisc.
  case_bool_decide as Hns.
  - injection H2 as <-. repeat split; auto. intros Hne. contradiction.
  - pose proof (HandleFunc_subseteq _ _ _ _ H2) as Hsub2.
    split; [by etrans|]. split; [by eapply lookup_weaken|].
    split; [|by repeat split].
    intros _. by apply HandleFunc_lookup in H2.
Qed.

(** The routes of a kind with a single binding. *)
Lemma NewServer_routes_of ak coll item nsHandler :
  In ak (ServerConfig.APIKinds config) ->
  (exists res, Resources ak = [res]
               /\ coll = resourceCollection res
               /\ item = resourceItem (itemPattern config ak) res
               /\ nsHandler = nsResource res)
  \/ (exists res, CustomResources ak = [res]
                  /\ coll = customCollection res
                  /\ item = customItem (itemPattern config ak) res
                  /\ nsHandler = nsCustomResource res) ->
  mux srv !! collectionPattern config ak = Some coll
  /\ (if Namespaced (ApiResource ak)
      then exists handlers,
             mux srv !! namespacesPattern config
             = Some (namespaces (namespacesPattern config) handlers)
             /\ handlers !! Name (ApiResource ak) = Some nsHandler
      else mux srv !! itemPattern config ak = Some item).
Proof.
  intros Hin Hbinding.
  destruct NewServer_built as (b & Hb & Hsub & _ & Hns & _).
  apply list_elem_of_In, list_elem_of_split in Hin as (pre & post & Hsplit).
  rewrite Hsplit in Hb.
  apply registerAPIKinds_split in Hb as (b1 & b2 & _ & Hak & Hpost).
  pose proof (registerAPIKind_Ok _ _ _ _ Hak) as (_ & _ & Hex2).
  apply registerAPIKind_tables in Hak as (_ & _ & _ & Hroutes).
  destruct (Hroutes coll item nsHandler Hbinding) as [Hc Hscope].
  pose proof (registerAPIKinds_Ok _ _ _ _ Hpost) as (_ & _ & Hfresh & _).
  apply registerAPIKinds_tables in Hpost as (Hsub2 & _ & Hkeep).
  split.
  - eapply lookup_weaken; [|exact Hsub]. by eapply lookup_weaken.
  - destruct (Namespaced (ApiResource ak)).
    + assert (Hlook : resourceHandlersNamespaced b !! Name (ApiResource ak)
                      = Some nsHandler).
      { rewrite Hkeep; [exact Hscope|].
        intros Hn. apply Hfresh in Hn. apply Hn. rewrite Hex2.
        apply elem_of_union_l. by apply elem_of_singleton. }
      exists (resourceHandlersNamespaced b). split; [|exact Hlook].
      apply Hns. intros Hempty. rewrite Hempty, lookup_empty in Hlook.
      discriminate Hlook.
    + eapply lookup_weaken; [|exact Hsub]. by eapply lookup_weaken.
Qed.

(** A kind that was registered has no binding beside a raw endpoint at
    its root. *)
Lemma NewServer_root_endpoint ak :
  In ak (ServerConfig.APIKinds config) ->
  In "" (map fst (RawEndpoints ak)) ->
  Resources ak = [] /\ CustomResources ak = [].
Proof.
  intros Hin Hroot.
  destruct NewServer_built as (b & Hb & _).
  apply list_elem_of_In, list_elem_of_split in Hin as (pre & post & Hsplit).
  rewrite Hsplit in Hb.
  apply registerAPIKinds_split in Hb as (b1 & b2 & _ & Hak & _).
  revert Hak. unfold registerAPIKind.
  case_bool_decide; [discriminate|].
  intros (m1 & Hraw & (st2 & H2 & (st3 & H3 & _)%bind_Ok)%bind_Ok)%bind_Ok.
  pose proof (registerRawEndpoints_adds _ _ _ _ _ _ Hraw Hroot) as Hreg.
  rewrite append_empty_r in Hreg.
  destruct (Resources ak) as [|res rs].
  - split; [reflexivity|]. injection H2 as <-.
    destruct (CustomResources ak) as [|c cs]; [reflexivity|].
    by rewrite forEach_registerCustomResource_registered in H3.
  - by rewrite forEach_registerResource_registered in H2.
Qed.

End BuiltServer.

(** X17: a server that is built carries the configuration's clients, port
    and key files; its route table has the two probes and [/apis], and at
    [/apis/{group}/{version}] the discovery handler that lists the
    [ApiResource] of every configured kind, in the order of the
    configuration.  No resource route replaces any of them. *)
Theorem NewServer_static_routes (config : ServerConfig.t) (srv : Server) :
  NewServer config = Ok srv ->
  mux srv !! "/healthz" = Some healthz
  /\ mux srv !! "/readyz" = Some readyz
  /\ mux srv !! "/apis"
     = Some (apis (ServerConfig.Group config) (ServerConfig.Version config))
  /\ mux srv !! groupVersionPath config
     = Some (discovery (ServerConfig.Group config +:+ "/"
                          +:+ ServerConfig.Version config)
                       (map ApiResource (ServerConfig.APIKinds config)))
  /\ KubeClient srv = ServerConfig.KubeClient config
  /\ DynamicKubeCluient srv = ServerConfig.DynamicKubeClient config
  /\ port srv = ServerConfig.Port config
  /\ certFile srv = ServerConfig.CertFile config
  /\ keyFile srv = ServerConfig.KeyFile config.
Proof.
  intros Hbuilt.
  destruct (NewServer_built config srv Hbuilt)
    as (b & Hb & Hsub & Hdisc & _ & Hfields).
  apply registerAPIKinds_tables in Hb as (Hsub0 & Hres & _).
  simpl in Hres. rewrite Hres in Hdisc.
  assert (Hinit : initialRoutes config ⊆ mux srv) by (by etrans).
  split; [|split; [|split; [|split; [exact Hdisc | exact Hfields]]]];
    (eapply lookup_weaken; [|exact Hinit]); unfold initialRoutes.
  - do 2 rewrite lookup_insert_ne by discriminate. apply lookup_insert_eq.
  - rewrite lookup_insert_ne by discriminate. apply lookup_insert_eq.
  - apply lookup_insert_eq.
Qed.

Lemma NewServer_static_routes_witness :
  match NewServer (Example.config
                     [Example.kind "widgets" true [Example.resource] [];
                      Example.kind "gadgets" false [Example.resource] []]) with
  | Ok srv =>
      mux srv !! "/apis/example.com/v1"
      = Some (discovery "example.com/v1"
                [mkAPIResource "widgets" true "Widget" ["get"; "list"; "watch"];
                 mkAPIResource "gadgets" false "Widget" ["get"; "list"; "watch"]])
  | Err _ => False
  end.
Proof.
  destruct (NewServer _) as [srv|p] eqn:Hbuilt.
  - destruct (NewServer_static_routes _ srv Hbuilt) as (_ & _ & _ & Hd & _).
    exact Hd.
  - vm_compute in Hbuilt. discriminate Hbuilt.
Defined.

(** X18: in a server that is built, a kind with one structured [Resource]
    is served by that resource: its collection route holds the handler of
    the resource; a cluster-scoped kind has its item route as well, and a
    namespaced kind is entered under its name in the table of the shared
    [/namespaces/] handler.  Later kinds do not displace it. *)
Theorem NewServer_resource_routes
    (config : ServerConfig.t) (srv : Server) (ak : APIKind) (res : Resource) :
  NewServer config = Ok srv ->
  In ak (ServerConfig.APIKinds config) ->
  Resources ak = [res] ->
  mux srv !! collectionPattern config ak = Some (resourceCollection res)
  /\ (if Namespaced (ApiResource ak)
      then exists handlers,
             mux srv !! namespacesPattern config
             = Some (namespaces (namespacesPattern config) handlers)
             /\ handlers !! Name (ApiResource ak) = Some (nsResource res)
      else mux srv !! itemPattern config ak
           = Some (resourceItem (itemPattern config ak) res)).
Proof.
  intros Hbuilt Hin Hres.
  apply (NewServer_routes_of config srv Hbuilt ak _ _ _ Hin).
  left. exists res. auto.
Qed.

Lemma NewServer_resource_routes_witness :
  match NewServer (Example.config
                     [Example.kind "widgets" true [Example.resource] [];
                      Example.kind "gadgets" false [Example.filtered] []]) with
  | Ok srv =>
      mux srv !! "/apis/example.com/v1/gadgets/"
      = Some (resourceItem "/apis/example.com/v1/gadgets/" Example.filtered)
  | Err _ => False
  end.
Proof.
  destruct (NewServer _) as [srv|p] eqn:Hbuilt.
  - destruct (NewServer_resource_routes _ srv
                (Example.kind "gadgets" false [Example.filtered] [])
                Example.filtered Hbuilt) as [_ Hitem].
    + right; left. reflexivity.
    + reflexivity.
    + exact Hitem.
  - vm_compute in Hbuilt. discriminate Hbuilt.
Defined.

(** X19: the same for a kind with one [CustomResource]: its collection
    route, and its item route or its entry in the table of the shared
    [/namespaces/] handler, hold the handlers of that custom resource. *)
Theorem NewServer_custom_routes
    (config : ServerConfig.t) (srv : Server) (ak : APIKind)
    (res : CustomResource) :
  NewServer config = Ok srv ->
  In ak (ServerConfig.APIKinds config) ->
  CustomResources ak = [res] ->
  mux srv !! collectionPattern config ak = Some (customCollection res)
  /\ (if Namespaced (ApiResource ak)
      then exists handlers,
             mux srv !! namespacesPattern config
             = Some (namespaces (namespacesPattern config) handlers)
             /\ handlers !! Name (ApiResource ak) = Some (nsCustomResource res)
      else mux srv !! itemPattern config ak
           = Some (customItem (itemPattern config ak) res)).
Proof.
  intros Hbuilt Hin Hres.
  apply (NewServer_routes_of config srv Hbuilt ak _ _ _ Hin).
  right. exists res. auto.
Qed.

Lemma NewServer_custom_routes_witness :
  match NewServer (Example.config
                     [Example.kind "widgets" true []
                        [mkCustomResource None None None None None None];
                      Example.kind "gadgets" false [Example.resource] []]) with
  | Ok srv =>
      exists handlers,
        mux srv !! "/apis/example.com/v1/namespaces/"
        = Some (namespaces "/apis/example.com/v1/namespaces/" handlers)
        /\ handlers !! "widgets"
           = Some (nsCustomResource
                     (mkCustomResource None None None None None None))
  | Err _ => False
  end.
Proof.
  destruct (NewServer _) as [srv|p] eqn:Hbuilt.
  - destruct (NewServer_custom_routes _ srv
                (Example.kind "widgets" true []
                   [mkCustomResource None None None None None None])
                (mkCustomResource None None None None None None) Hbuilt)
      as [_ Hns].
    + left. reflexivity.
    + reflexivity.
    + exact Hns.
  - vm_compute in Hbuilt. discriminate Hbuilt.
Defined.

(** X20: a raw endpoint registered under the empty suffix occupies the
    collection route of its kind.  A server is built only if such a kind
    has neither [Resources] nor [CustomResources]; with either of them
    [NewServer] panics. *)
Theorem NewServer_root_endpoint_excludes_bindings
    (config : ServerConfig.t) (srv : Server) (ak : APIKind) :
  NewServer config = Ok srv ->
  In ak (ServerConfig.APIKinds config) ->
  In "" (map fst (RawEndpoints ak)) ->
  Resources ak = [] /\ CustomResources ak = [].
Proof. intros Hbuilt. by apply NewServer_root_endpoint with (srv := srv). Qed.

Lemma NewServer_root_endpoint_excludes_bindings_witness :
  let raw : HandlerFunc := fun _ _ => ret [EWrite "foo"] in
  let foo := mkAPIKind (mkAPIResource "foo" false "" ["get"])
               [("", Some raw); ("/bar", Some raw)] [] [] in
  match NewServer (Example.config [foo]) with
  | Ok srv => Resources foo = [] /\ CustomResources foo = []
  | Err _ => False
  end.
Proof.
  intros raw foo.
  destruct (NewServer _) as [srv|p] eqn:Hbuilt.
  - apply (NewServer_root_endpoint_excludes_bindings _ srv foo Hbuilt).
    + left. reflexivity.
    + left. reflexivity.
  - vm_compute in Hbuilt. discriminate Hbuilt.
Defined.

(** * Further properties of the registered handlers *)

Lemma append_cons (c : ascii) (p q : string) :
  String c p +:+ q = String c (p +:+ q).
Proof. reflexivity. Qed.

Lemma TrimPrefix_app (prefix rest : string) :
  Go.TrimPrefix (prefix +:+ rest) prefix = rest.
Proof.
  unfold Go.TrimPrefix.
  assert (H : Go.strip_prefix prefix (prefix +:+ rest) = Some rest).
  { induction prefix as [|c prefix IH]; [by destruct rest|].
    rewrite append_cons. simpl. by rewrite Ascii.eqb_refl. }
  by rewrite H.
Qed.

Lemma Split_slash_free (segment : string) :
  slash_free segment = true -> Go.Split segment = [segment].
Proof.
  induction segment as [|c segment IH]; [reflexivity|]. simpl.
  intros [Hc Hs]%andb_true_iff. apply negb_true_iff in Hc.
  by rewrite Hc, IH.
Qed.

Lemma Split_segment (segment rest : string) :
  slash_free segment = true ->
  Go.Split (segment +:+ String "/" rest) = segment :: Go.Split rest.
Proof.
  induction segment as [|c segment IH]; [reflexivity|].
  rewrite append_cons. simpl.
  intros [Hc Hs]%andb_true_iff. apply negb_true_iff in Hc.
  by rewrite Hc, IH.
Qed.

(** X21: an item route resolves the name from the first path segment
    after its prefix and ignores what follows it; without such a segment
    (the bare prefix, or a slash right after it) the answer is 404 and
    neither the resource nor a custom handler is consulted. *)
Theorem item_route_resolves_name
    (k8s : Apimachinery) (s : Server) (res : Resource)
    (custom : CustomResource) (prefix name : string)
    (w : ResponseWriter) (r : Request) (selects : list SelectOutcome)
    (rest : string) :
  slash_free name = true ->
  Path r = prefix +:+ name \/ Path r = prefix +:+ name +:+ String "/" rest ->
  serveHandler k8s s (resourceItem prefix res) w r selects
  = (if String.eqb name "" then ret [EHttpNotFound]
     else handleResourceFunc k8s s (CreateNew res) (CreateNewList res)
            (ListCallback res) (WatchCallback res) "" name w r selects)
  /\ serveHandler k8s s (customItem prefix custom) w r selects
     = (if String.eqb name "" then ret [EHttpNotFound]
        else customVerbs custom "" name w r).
Proof.
  intros Hname Hpath. unfold serveHandler, serveResource.
  destruct Hpath as [-> | ->]; rewrite TrimPrefix_app.
  - by rewrite Split_slash_free.
  - by rewrite Split_segment.
Qed.

Lemma item_route_resolves_name_witness :
  serveHandler Example.k8s Example.store
    (resourceItem "/apis/example.com/v1/widgets/" Example.resource)
    Example.writer
    (Example.GET "/apis/example.com/v1/widgets/bar/status" []) []
  = Example.serve Example.store Example.resource "bar"
      (Example.GET "/apis/example.com/v1/widgets/bar/status" []) [].
Proof.
  apply (item_route_resolves_name Example.k8s Example.store Example.resource
           (mkCustomResource None None None None None None)
           "/apis/example.com/v1/widgets/" "bar" Example.writer
           (Example.GET "/apis/example.com/v1/widgets/bar/status" []) []
           "status").
  - reflexivity.
  - right. reflexivity.
Defined.

Lemma Split_nonempty (s : string) : exists piece pieces, Go.Split s = piece :: pieces.
Proof.
  induction s as [|c s (piece & pieces & IH)]; simpl; [eauto|].
  destruct (Ascii.eqb c "/"); [eauto|]. rewrite IH. eauto.
Qed.

(** X22: the shared [/namespaces/] handler resolves
    [{namespace}/{resource}] to the collection of the resource in that
    namespace and [{namespace}/{resource}/{name}] to the named object; a
    namespace alone and an unregistered resource are answered 404.  A
    path with anything after the name is served as the collection: the
    name is taken only from a path of exactly three segments. *)
Theorem namespaces_route_resolves
    (k8s : Apimachinery) (s : Server) (prefix : string)
    (handlers : gmap string NamespacedHandler)
    (namespace resource name more : string)
    (w : ResponseWriter) (method : string) (q : Go.Values)
    (selects : list SelectOutcome) :
  slash_free namespace = true ->
  slash_free resource = true ->
  slash_free name = true ->
  let at_path path :=
    serveHandler k8s s (namespaces prefix handlers) w
                 (mkRequest method path q) selects in
  let served n path :=
    match handlers !! resource with
    | Some h => serveNamespaced k8s s h namespace n w
                                (mkRequest method path q) selects
    | None => ret [EHttpNotFound]
    end in
  at_path (prefix +:+ namespace) = ret [EHttpNotFound]
  /\ at_path (prefix +:+ namespace +:+ String "/" resource)
     = served "" (prefix +:+ namespace +:+ String "/" resource)
  /\ at_path (prefix +:+ namespace +:+ String "/"
                (resource +:+ String "/" name))
     = served name (prefix +:+ namespace +:+ String "/"
                      (resource +:+ String "/" name))
  /\ at_path (prefix +:+ namespace +:+ String "/"
                (resource +:+ String "/" (name +:+ String "/" more)))
     = served "" (prefix +:+ namespace +:+ String "/"
                    (resource +:+ String "/" (name +:+ String "/" more))).
Proof.
  intros Hns Hres Hname at_path served. subst at_path served.
  unfold serveHandler; cbn [Path].
  rewrite !TrimPrefix_app.
  rewrite (Split_slash_free namespace Hns).
  rewrite !(Split_segment namespace _ Hns).
  rewrite (Split_slash_free resource Hres).
  rewrite !(Split_segment resource _ Hres).
  rewrite (Split_slash_free name Hname).
  rewrite (Split_segment name _ Hname).
  destruct (Split_nonempty more) as (piece & pieces & ->).
  repeat split; by destruct (handlers !! resource).
Qed.

Lemma namespaces_route_resolves_witness :
  let handlers : gmap string NamespacedHandler :=
    {[ "widgets" := nsResource Example.resource ]} in
  trace (serveHandler Example.k8s Example.store
           (namespaces "/apis/example.com/v1/namespaces/" handlers)
           Example.writer
           (mkRequest "GET"
              ("/apis/example.com/v1/namespaces/" +:+ "ns1" +:+ String "/"
                 ("widgets" +:+ String "/" ("bar" +:+ String "/" "status")))
              ∅) [])
  = trace (serveNamespaced Example.k8s Example.store
             (nsResource Example.resource) "ns1" "" Example.writer
             (mkRequest "GET"
                ("/apis/example.com/v1/namespaces/" +:+ "ns1" +:+ String "/"
                   ("widgets" +:+ String "/" ("bar" +:+ String "/" "status")))
                ∅) []).
Proof.
  intros handlers.
  pose proof (namespaces_route_resolves Example.k8s Example.store
                "/apis/example.com/v1/namespaces/" handlers
                "ns1" "widgets" "bar" "status" Example.writer "GET" ∅ []
                eq_refl eq_refl eq_refl) as Hroutes.
  cbv zeta in Hroutes. destruct Hroutes as (_ & _ & _ & Hmore).
  rewrite Hmore. reflexivity.
Defined.

(** X23: through the shared [/namespaces/] handler a POST reaches the
    [CreateHandler] of a custom resource with an empty namespace and an
    empty name, whatever the path says; PUT and DELETE pass the namespace
    and the name of the path on. *)
Theorem namespaced_custom_verbs
    (k8s : Apimachinery) (s : Server) (prefix : string)
    (handlers : gmap string NamespacedHandler) (res : CustomResource)
    (namespace resource name : string)
    (w : ResponseWriter) (r : Request) (selects : list SelectOutcome) :
  slash_free namespace = true ->
  slash_free resource = true ->
  slash_free name = true ->
  handlers !! resource = Some (nsCustomResource res) ->
  Path r = prefix +:+ namespace +:+ String "/" (resource +:+ String "/" name) ->
  let run := serveHandler k8s s (namespaces prefix handlers) w r selects in
  (Method r = http.MethodPost -> run = callCustom (CreateHandler res) "" "" w r)
  /\ (Method r = http.MethodPut ->
      run = callCustom (ReplaceHandler res) namespace name w r)
  /\ (Method r = http.MethodDelete ->
      run = callCustom (DeleteHandler res) namespace name w r).
Proof.
  intros Hns Hres Hname Hh Hpath run. subst run.
  unfold serveHandler. rewrite Hpath, TrimPrefix_app.
  rewrite (Split_segment namespace _ Hns), (Split_segment resource _ Hres),
    (Split_slash_free name Hname), Hh.
  unfold serveNamespaced, customVerbs.
  repeat split; intros ->; reflexivity.
Qed.

Lemma namespaced_custom_verbs_witness :
  let create : CustomResourceHandlerFunc :=
    fun namespace name _ _ =>
      ret [EWrite ("create " +:+ namespace +:+ "/" +:+ name)] in
  let res := mkCustomResource (Some create) None None None None None in
  serveHandler Example.k8s Example.store
    (namespaces "/apis/example.com/v1/namespaces/"
                {[ "customtasks" := nsCustomResource res ]})
    Example.writer
    (mkRequest "POST"
       ("/apis/example.com/v1/namespaces/" +:+ "default" +:+ String "/"
          ("customtasks" +:+ String "/" "foo")) ∅) []
  = ret [EWrite "create /"].
Proof.
  intros create res.
  apply (namespaced_custom_verbs Example.k8s Example.store
           "/apis/example.com/v1/namespaces/"
           {[ "customtasks" := nsCustomResource res ]} res
           "default" "customtasks" "foo" Example.writer
           (mkRequest "POST"
              ("/apis/example.com/v1/namespaces/" +:+ "default" +:+ String "/"
                 ("customtasks" +:+ String "/" "foo")) ∅) []);
    reflexivity.
Defined.

(** X24: the collection route of a cluster-scoped custom resource serves
    GET only: every other method is answered 404, and whatever the
    method, the create, get, replace and delete handlers play no part. *)
Theorem custom_collection_route_serves_get_only
    (k8s : Apimachinery) (s : Server) (res res' : CustomResource)
    (w : ResponseWriter) (r : Request) (selects : list SelectOutcome) :
  WatchHandler res' = WatchHandler res ->
  ListHandler res' = ListHandler res ->
  serveHandler k8s s (customCollection res') w r selects
  = serveHandler k8s s (customCollection res) w r selects
  /\ (Method r <> http.MethodGet ->
      serveHandler k8s s (customCollection res) w r selects
      = ret [EHttpNotFound]).
Proof.
  intros Hw Hl. unfold serveHandler, customCollectionVerbs.
  rewrite Hw, Hl. split; [reflexivity|].
  intros Hm. apply String.eqb_neq in Hm. by rewrite Hm.
Qed.

Lemma custom_collection_route_serves_get_only_witness :
  let create : CustomResourceHandlerFunc :=
    fun _ _ _ _ => ret [EWrite "created"] in
  serveHandler Example.k8s Example.store
    (customCollection (mkCustomResource (Some create) None None None None None))
    Example.writer
    (mkRequest "POST" "/apis/example.com/v1/clustertasks" ∅) []
  = serveHandler Example.k8s Example.store
      (customCollection (mkCustomResource None None None None None None))
      Example.writer
      (mkRequest "POST" "/apis/example.com/v1/clustertasks" ∅) [].
Proof.
  intros create.
  apply (proj1 (custom_collection_route_serves_get_only Example.k8s
                  Example.store
                  (mkCustomResource None None None None None None)
                  (mkCustomResource (Some create) None None None None None)
                  Example.writer
                  (mkRequest "POST" "/apis/example.com/v1/clustertasks" ∅) []
                  eq_refl eq_refl)).
Defined.

(** * The gates before the backing store *)

(** X25: the backing client is called for GET requests only, and only
    after the kinds of the resource and of its list have been resolved;
    a request with another method, or a resource whose kinds the REST
    mapper does not know, never reaches it. *)
Theorem backing_call_needs_get_and_kinds
    (k8s : Apimachinery) (s : Server) (res : Resource)
    (namespace name : string) (w : ResponseWriter) (r : Request)
    (selects : list SelectOutcome) (e : Effect) :
  In e (trace (handleResourceFunc k8s s (CreateNew res) (CreateNewList res)
                 (ListCallback res) (WatchCallback res) namespace name w r
                 selects)) ->
  is_backing_call e = true ->
  Method r = http.MethodGet
  /\ (exists newKind, KindFor (KubeClient s) (fst (CreateNew res)) = Ok newKind)
  /\ (exists newKindList,
         KindFor (KubeClient s) (fst (CreateNewList res)) = Ok newKindList).
Proof.
  unfold handleResourceFunc.
  destruct (String.eqb_spec (Method r) http.MethodGet) as [Hm|Hm]; simpl.
  - destruct (KindFor (KubeClient s) (fst (CreateNew res))) as [k1|e1];
      [|intros [<-|[]]; discriminate].
    destruct (KindFor (KubeClient s) (fst (CreateNewList res))) as [k2|e2];
      [|intros [<-|[]]; discriminate].
    eauto.
  - intros [<-|[]]; discriminate.
Qed.

Lemma backing_call_needs_get_and_kinds_witness :
  Method (Example.GET "/apis/example.com/v1/widgets/bar" []) = http.MethodGet.
Proof.
  apply (backing_call_needs_get_and_kinds Example.k8s Example.store
           Example.resource "" "bar" Example.writer
           (Example.GET "/apis/example.com/v1/widgets/bar" []) []
           (EKubeGet "" "bar")).
  - vm_compute. left. reflexivity.
  - reflexivity.
Defined.
